(** * AudioChecker: a shallow embedding of [audio_checker.py]

    The development follows the Python class [AudioChecker]:
    [__init__], [load_wav], [analyze] and [plot_waveform].

    Conventions.
    - Python exceptions are the constructors of [exn]; a call either
      returns a value or raises, which is the type [result].
    - The standard-library calls the class relies on ([os.path.splitext],
      [str.lower], [str.endswith], [struct.unpack], [numpy.reshape],
      [numpy.max], [numpy.mean]) are written out as functions.
    - What the outside world answers ([tempfile], [ffmpeg], the [wave]
      reader, [os.remove]) is an explicit oracle [Env]; the temporary
      files that exist and the calls made are kept in an explicit [World].
    - Python's [int / int] and [numpy.mean] produce binary64 numbers; they
      are modelled by the exact rational they round, in [Q]. *)

From Stdlib Require Import ZArith List Lia Bool Arith String Ascii QArith.
From Stdlib Require Import Strings.Byte.
Import ListNotations.

Open Scope string_scope.
Open Scope list_scope.
Open Scope Z_scope.

(** ** Exceptions and results *)

(** The exception classes that can leave the methods of [AudioChecker].
    The specification's names for them: [ValueError] raised by [__init__]
    is its UnsupportedFormatError, [RuntimeError] its NotLoadedError,
    [ZeroDivisionError] its InvalidFormatError, [StructError]
    ([struct.error]) its DecodeError, and the exceptions of the [wave]
    reader ([WaveError], [EOFError], [OSError]) its FormatError. *)
Inductive exn : Type :=
| ValueError
| RuntimeError
| ZeroDivisionError
| IndexError
| AttributeError
| TypeError
| StructError
| WaveError
| EOFError
| OSError
| CalledProcessError.

Inductive result (A : Type) : Type :=
| Ok (a : A)
| Raise (e : exn).
Arguments Ok {A} a.
Arguments Raise {A} e.

Definition is_ok {A} (r : result A) : bool :=
  match r with Ok _ => true | Raise _ => false end.

(** ** Strings: [str.lower], [str.rfind], slices, [str.endswith] *)

Module Str.

(** [str.lower] on one character: the letters [A]..[Z] move to [a]..[z],
    every other character is kept.  Paths are taken as ASCII strings;
    outside ASCII, Python lowers more characters, but none of them to a
    character of [.wav] or [.mp3], to a dot or to a slash, so the
    comparisons below are not affected. *)
Definition lower_ascii (c : ascii) : ascii :=
  let n := nat_of_ascii c in
  if (andb (65 <=? n) (n <=? 90))%nat then ascii_of_nat (n + 32) else c.

Fixpoint lower (s : string) : string :=
  match s with
  | EmptyString => EmptyString
  | String c s' => String (lower_ascii c) (lower s')
  end.

(** [s.rfind(c)]: the highest index of [c] in [s], or [-1]. *)
Fixpoint rfind (c : ascii) (s : string) : Z :=
  match s with
  | EmptyString => -1
  | String a s' =>
      let r := rfind c s' in
      if 0 <=? r then r + 1
      else if Ascii.eqb a c then 0 else -1
  end.

(** [s[n:]] and [s[:n]] for [n >= 0]. *)
Fixpoint drop (n : nat) (s : string) : string :=
  match n, s with
  | O, _ => s
  | S _, EmptyString => EmptyString
  | S n', String _ s' => drop n' s'
  end.

Fixpoint take (n : nat) (s : string) : string :=
  match n, s with
  | O, _ => EmptyString
  | S _, EmptyString => EmptyString
  | S n', String c s' => String c (take n' s')
  end.

(** [s.endswith(suffix)]. *)
Definition endswith (s suffix : string) : bool :=
  ((String.length suffix <=? String.length s)%nat
   && String.eqb (drop (String.length s - String.length suffix) s) suffix)%bool.

(** Truth value of a string: the empty string is false. *)
Definition truthy (s : string) : bool :=
  match s with EmptyString => false | String _ _ => true end.

End Str.

(** ** [os.path.splitext] (posixpath: separator [/], extension separator [.]) *)

Module OsPath.

(** The loop of [genericpath._splitext] that skips the leading dots of the
    file name: starting at [filenameIndex], it looks at the characters
    before [dotIndex], and answers [true] at the first one that is not a
    dot; [fuel] is [dotIndex - filenameIndex], the number of iterations
    the [while] can make. *)
Fixpoint has_non_dot (fuel : nat) (filenameIndex : nat) (p : string) : bool :=
  match fuel with
  | O => false
  | S fuel' =>
      match String.get filenameIndex p with
      | Some c =>
          if Ascii.eqb c "." then has_non_dot fuel' (S filenameIndex) p
          else true
      | None => true
      end
  end.

Definition splitext (p : string) : string * string :=
  let sepIndex := Str.rfind "/" p in
  let dotIndex := Str.rfind "." p in
  if sepIndex <? dotIndex then
    let filenameIndex := sepIndex + 1 in
    if has_non_dot (Z.to_nat (dotIndex - filenameIndex))
                   (Z.to_nat filenameIndex) p
    then (Str.take (Z.to_nat dotIndex) p, Str.drop (Z.to_nat dotIndex) p)
    else (p, EmptyString)
  else (p, EmptyString).

End OsPath.

(** ** Samples: [struct.unpack] with format ['<' + 'h' * count] *)

Definition byte_val (b : byte) : Z := Z.of_N (Byte.to_N b).

(** One ['<h'] item: two bytes, low byte first, read as a signed 16-bit
    integer. *)
Definition s16le (b0 b1 : byte) : Z :=
  let u := Z.lor (byte_val b0) (Z.shiftl (byte_val b1) 8) in
  if Z.testbit u 15 then u - 65536 else u.

Fixpoint le_pairs (raw : list byte) : list Z :=
  match raw with
  | b0 :: b1 :: rest => s16le b0 b1 :: le_pairs rest
  | _ => []
  end.

(** [struct.unpack('<' + 'h' * count, raw)]: the buffer must have exactly
    the size the format asks for, [2 * count] bytes, or [struct.error] is
    raised. *)
Definition struct_unpack_h (count : N) (raw : list byte) : result (list Z) :=
  if (N.of_nat (List.length raw) =? 2 * count)%N then Ok (le_pairs raw)
  else Raise StructError.

(** ** Arrays: the part of numpy that the class uses *)

Module Np.

(** A one-dimensional array, or a two-dimensional one with [ncols]
    columns, stored row by row. *)
Inductive ndarray : Type :=
| Arr1 (data : list Z)
| Arr2 (ncols : nat) (rows : list (list Z)).

Definition array (data : list Z) : ndarray := Arr1 data.

Definition flat (a : ndarray) : list Z :=
  match a with
  | Arr1 d => d
  | Arr2 _ rows => List.concat rows
  end.

(** Row [f] of the reshaped array is the slice [f*n .. f*n + n) of the
    flat data (C order). *)
Definition chunk (n : nat) (data : list Z) (f : nat) : list Z :=
  firstn n (skipn (f * n) data).

(** [a.reshape(-1, n)] for [n >= 1]: the number of rows is inferred, and
    the size must be a multiple of [n], else [ValueError]. *)
Definition reshape (a : ndarray) (n : nat) : result ndarray :=
  let d := flat a in
  match n with
  | O => Raise ValueError
  | S _ =>
      if (List.length d mod n =? 0)%nat
      then Ok (Arr2 n (List.map (chunk n d) (seq 0 (List.length d / n))))
      else Raise ValueError
  end.

(** [np.abs], element by element (the array is int64: no wrap-around for
    16-bit samples). *)
Definition abs (a : ndarray) : ndarray :=
  match a with
  | Arr1 d => Arr1 (List.map Z.abs d)
  | Arr2 n rows => Arr2 n (List.map (List.map Z.abs) rows)
  end.

(** [np.max] over all elements; a zero-size array has no maximum and
    numpy raises [ValueError]. *)
Definition max (a : ndarray) : result Z :=
  match flat a with
  | [] => Raise ValueError
  | x :: xs => Ok (List.fold_left Z.max xs x)
  end.

Definition sum (l : list Z) : Z := List.fold_left Z.add l 0.

(** [np.mean] over all elements: the sum divided by the number of
    elements.  (On a zero-size array numpy answers nan; [analyze] calls
    [np.max] first and never gets there. [Q] has no nan: the quotient by
    zero is [0].) *)
Definition mean (a : ndarray) : Q :=
  let d := flat a in
  (inject_Z (sum d) / inject_Z (Z.of_nat (List.length d)))%Q.

(** [a[:, c]]: a one-dimensional array has no second axis, and a column
    beyond [ncols] is out of bounds; both are [IndexError]. *)
Definition column (a : ndarray) (c : nat) : result (list Z) :=
  match a with
  | Arr1 _ => Raise IndexError
  | Arr2 n rows =>
      if (c <? n)%nat then Ok (List.map (fun r => nth c r 0) rows)
      else Raise IndexError
  end.

End Np.

(** ** The session object *)

(** [wave.getparams()]: the fields the class reads.  The reader takes
    them from unsigned header fields, so they are natural numbers. *)
Record wave_params : Type := mk_params {
  nchannels : N;
  sampwidth : N;
  framerate : N;
  nframes : N
}.

(** The attributes of an [AudioChecker] instance; [None] is Python's
    [None]. *)
Record AudioChecker : Type := mk_checker {
  filepath : string;
  params : option wave_params;
  frames : option N;
  signal : option Np.ndarray
}.

(** ** The outside world *)

Inductive call : Type :=
| CallMkTemp (name : string)
| CallFfmpeg (src dst : string)
| CallWaveOpen (path : string)
| CallRemove (path : string).

(** [temp_files]: the temporary files that exist; [calls]: the calls made
    to the operating system so far, latest first. *)
Record World : Type := mk_world {
  temp_files : list string;
  calls : list call
}.

(** What [wave.open] / [getparams] / [readframes] do on a path. *)
Inductive wave_outcome : Type :=
| OpenRaises (e : exn)
| ReadRaises (p : wave_params) (e : exn)
| Frames (p : wave_params) (raw : list byte).

(** The answers of the environment during one call of [load_wav]. *)
Record Env : Type := mk_env {
  tmp_name : string;
  ffmpeg : string -> string -> option exn;
  wave_file : string -> wave_outcome;
  remove_fails : bool
}.

Record St : Type := mk_st {
  self : AudioChecker;
  world : World
}.

(** ** A state-and-exception monad for the methods *)

Definition M (A : Type) : Type := St -> St * result A.

Definition ret {A} (a : A) : M A := fun st => (st, Ok a).
Definition raise {A} (e : exn) : M A := fun st => (st, Raise e).
Definition bind {A B} (m : M A) (k : A -> M B) : M B :=
  fun st =>
    match m st with
    | (st', Ok a) => k a st'
    | (st', Raise e) => (st', Raise e)
    end.
Definition lift {A} (r : result A) : M A := fun st => (st, r).

Declare Scope py_scope.
Delimit Scope py_scope with py.
Notation "x <- m ;; k" := (bind m (fun x => k))
  (at level 100, m at next level, right associativity) : py_scope.
Notation "m ;;; k" := (bind m (fun _ => k))
  (at level 100, right associativity) : py_scope.

Definition get_self : M AudioChecker := fun st => (st, Ok (self st)).
Definition set_self (f : AudioChecker -> AudioChecker) : M unit :=
  fun st => (mk_st (f (self st)) (world st), Ok tt).
Definition on_world (f : World -> World) : M unit :=
  fun st => (mk_st (self st) (f (world st)), Ok tt).
Definition log (c : call) (w : World) : World :=
  mk_world (temp_files w) (c :: calls w).

Definition set_params (p : wave_params) (s : AudioChecker) : AudioChecker :=
  mk_checker (filepath s) (Some p) (frames s) (signal s).
Definition set_frames (n : N) (s : AudioChecker) : AudioChecker :=
  mk_checker (filepath s) (params s) (Some n) (signal s).
Definition set_signal (a : Np.ndarray) (s : AudioChecker) : AudioChecker :=
  mk_checker (filepath s) (params s) (frames s) (Some a).

(** ** [AudioChecker.__init__] *)

(** The constructor looks at the path only; the world is passed through
    so that what it does to it can be stated. *)
Definition init (path : string) (w : World) : World * result AudioChecker :=
  let ext := Str.lower (snd (OsPath.splitext path)) in
  if (String.eqb ext ".wav" || String.eqb ext ".mp3")%bool
  then (w, Ok (mk_checker path None None None))
  else (w, Raise ValueError).

(** ** [AudioChecker.load_wav] *)

(** [tempfile.NamedTemporaryFile(suffix='.wav', delete=False)], then
    [tmp.close()]: the file stays on disk.  Creating it is taken to
    succeed. *)
Definition named_temporary_file (env : Env) : M string :=
  (on_world (fun w =>
     log (CallMkTemp (tmp_name env))
         (mk_world (tmp_name env :: temp_files w) (calls w))) ;;;
   ret (tmp_name env))%py.

(** [subprocess.run([... ffmpeg ...], check=True)]. *)
Definition subprocess_run_ffmpeg (env : Env) (src dst : string) : M unit :=
  (on_world (log (CallFfmpeg src dst)) ;;;
   match ffmpeg env src dst with
   | Some e => raise e
   | None => ret tt
   end)%py.

(** The [with wave.open(filepath, 'rb') as wf:] block: [self.params] is
    assigned as soon as [getparams] has answered, before the frames are
    read. *)
Definition wave_block (env : Env) (path : string) : M (list byte) :=
  (on_world (log (CallWaveOpen path)) ;;;
   match wave_file env path with
   | OpenRaises e => raise e
   | ReadRaises p e => set_self (set_params p) ;;; raise e
   | Frames p raw => set_self (set_params p) ;;; ret raw
   end)%py.

Definition remove_string (x : string) (l : list string) : list string :=
  List.filter (fun y => negb (String.eqb x y)) l.

(** [try: os.remove(temp_wav) except OSError: pass]. *)
Definition os_remove_quiet (env : Env) (path : string) : M unit :=
  on_world (fun w =>
     log (CallRemove path)
         (if remove_fails env then w
          else mk_world (remove_string path (temp_files w)) (calls w))).

(** Reading [self.params] when it may still be [None]. *)
Definition get_params : M wave_params :=
  (s <- get_self ;;
   match params s with
   | Some p => ret p
   | None => raise AttributeError
   end)%py.

(** Lines 31-42: an [.mp3] input is first converted by ffmpeg into a
    fresh temporary [.wav]; the answer is the path to read and
    [temp_wav]. *)
Definition transcode (env : Env) : M (string * option string) :=
  (s <- get_self ;;
   let filepath0 := filepath s in
   if Str.endswith (Str.lower filepath0) ".mp3" then
     temp_wav <- named_temporary_file env ;;
     subprocess_run_ffmpeg env filepath0 temp_wav ;;;
     ret (temp_wav, Some temp_wav)
   else ret (filepath0, None))%py.

(** Lines 48-52: [if temp_wav: try: os.remove(temp_wav) ...]. *)
Definition cleanup (env : Env) (temp_wav : option string) : M unit :=
  match temp_wav with
  | Some t => if Str.truthy t then os_remove_quiet env t else ret tt
  | None => ret tt
  end.

(** Lines 54-62: unpack the frames into an array, one row per frame when
    there is more than one channel, and store it. *)
Definition unpack_signal (raw : list byte) : M unit :=
  (p <- get_params ;;
   data <- lift (struct_unpack_h (nframes p * nchannels p) raw) ;;
   let signal0 := Np.array data in
   signal1 <-
     (if (1 <? nchannels p)%N
      then lift (Np.reshape signal0 (N.to_nat (nchannels p)))
      else ret signal0) ;;
   set_self (set_frames (nframes p)) ;;;
   set_self (set_signal signal1))%py.

Definition load_wav (env : Env) : M unit :=
  (source <- transcode env ;;
   raw <- wave_block env (fst source) ;;
   cleanup env (snd source) ;;;
   unpack_signal raw)%py.

(** ** [AudioChecker.analyze] *)

Record Analysis : Type := mk_analysis {
  channels : N;
  sample_width : N;
  framerate_ : N;
  frames_ : N;
  duration_s : Q;
  peak_amplitude : Z;
  mean_amplitude : Q
}.

(** [self.frames / self.params.framerate]: true division of two ints. *)
Definition true_div (a : option N) (b : N) : result Q :=
  match a with
  | None => Raise TypeError
  | Some n =>
      if (b =? 0)%N then Raise ZeroDivisionError
      else Ok (inject_Z (Z.of_N n) / inject_Z (Z.of_N b))%Q
  end.

(** The checks come in the order of the source: the guard on
    [self.signal], the division, [np.max], [np.mean], then the
    dictionary.  ([self.frames] is read a second time for the dictionary;
    it cannot be [None] there, the division having passed.) *)
Definition analyze (s : AudioChecker) : result Analysis :=
  match signal s with
  | None => Raise RuntimeError
  | Some sig =>
      match params s with
      | None => Raise AttributeError
      | Some p =>
          match true_div (frames s) (framerate p) with
          | Raise e => Raise e
          | Ok duration =>
              match Np.max (Np.abs sig) with
              | Raise e => Raise e
              | Ok peak =>
                  let mean_amp := Np.mean (Np.abs sig) in
                  match frames s with
                  | None => Raise TypeError
                  | Some fr =>
                      Ok (mk_analysis (nchannels p) (sampwidth p)
                            (framerate p) fr duration peak mean_amp)
                  end
              end
          end
      end
  end.

(** ** [AudioChecker.plot_waveform] *)

(** What is handed to [plt.plot]: the label, if any, and the values. The
    PNG encoding of the figure is not modelled. *)
Definition trace : Type := (option string * list Z)%type.

(** [plt.plot(a)] without label: one line for a one-dimensional array,
    one line per column for a two-dimensional one. *)
Definition plot_all (a : Np.ndarray) : list trace :=
  match a with
  | Np.Arr1 d => [(None, d)]
  | Np.Arr2 n rows =>
      List.map (fun c => (None, List.map (fun r => nth c r 0) rows)) (seq 0 n)
  end.

Definition plot_waveform (s : AudioChecker) : result (list trace) :=
  match signal s with
  | None => Raise RuntimeError
  | Some sig =>
      match params s with
      | None => Raise AttributeError
      | Some p =>
          if (1 <? nchannels p)%N then
            match Np.column sig 0 with
            | Raise e => Raise e
            | Ok lft =>
                match Np.column sig 1 with
                | Raise e => Raise e
                | Ok rgt => Ok [(Some "Left", lft); (Some "Right", rgt)]
                end
            end
          else Ok (plot_all sig)
      end
  end.

(** ** Sessions: a constructor call followed by calls of [load_wav] *)

(** The state after the calls of [load_wav] answered by [envs], in order. *)
Fixpoint run_loads (envs : list Env) (st : St) : St :=
  match envs with
  | [] => st
  | env :: rest => run_loads rest (fst (load_wav env st))
  end.

(** Whether one of those calls returned normally: decoding has completed. *)
Fixpoint decoded (envs : list Env) (st : St) : bool :=
  match envs with
  | [] => false
  | env :: rest =>
      (is_ok (snd (load_wav env st)) || decoded rest (fst (load_wav env st)))%bool
  end.

(** ** Vocabulary for the statements *)

(** The path [load_wav] hands to the [wave] reader. *)
Definition source_path (env : Env) (s : AudioChecker) : string :=
  if Str.endswith (Str.lower (filepath s)) ".mp3" then tmp_name env
  else filepath s.

(** The transcoding step, if there is one, exits with status zero. *)
Definition transcode_ok (env : Env) (s : AudioChecker) : bool :=
  if Str.endswith (Str.lower (filepath s)) ".mp3" then
    match ffmpeg env (filepath s) (tmp_name env) with
    | None => true
    | Some _ => false
    end
  else true.

(** The array [load_wav] stores for parameters [p] and samples [data]. *)
Definition shaped (p : wave_params) (data : list Z) : Np.ndarray :=
  if (1 <? nchannels p)%N
  then Np.Arr2 (N.to_nat (nchannels p))
         (List.map (Np.chunk (N.to_nat (nchannels p)) data)
            (seq 0 (List.length data / N.to_nat (nchannels p))))
  else Np.Arr1 data.

(** Element [(f, c)] of an array with channels in columns; a
    one-dimensional array is a single column. *)
Definition sample_at (a : Np.ndarray) (f c : nat) : Z :=
  match a with
  | Np.Arr1 d => nth f d 0
  | Np.Arr2 _ rows => nth c (nth f rows []) 0
  end.

(** A buffer in which every sample is zero but the one at position [i],
    which is [v]. *)
Definition one_hot (i : nat) (v : Z) (l : list Z) : Prop :=
  (i < List.length l)%nat /\ nth i l 0 = v /\
  forall j, (j < List.length l)%nat -> j <> i -> nth j l 0 = 0.

(** ** [AudioChecker.export_pdf_report] *)

(** [str.replace('_', ' ')] and [str.title] on ASCII strings. *)
Module StrFmt.

Definition is_upper (c : ascii) : bool :=
  let n := nat_of_ascii c in ((65 <=? n) && (n <=? 90))%nat.

Definition is_lower (c : ascii) : bool :=
  let n := nat_of_ascii c in ((97 <=? n) && (n <=? 122))%nat.

Definition upper_ascii (c : ascii) : ascii :=
  if is_lower c then ascii_of_nat (nat_of_ascii c - 32) else c.

Fixpoint replace_char (old new : ascii) (s : string) : string :=
  match s with
  | EmptyString => EmptyString
  | String c s' =>
      String (if Ascii.eqb c old then new else c) (replace_char old new s')
  end.

(** [str.title]: a letter that follows a letter is lowered, a letter that
    does not is raised; [prev_cased] tells whether the previous character
    was a letter. *)
Fixpoint title_from (prev_cased : bool) (s : string) : string :=
  match s with
  | EmptyString => EmptyString
  | String c s' =>
      if is_lower c then
        String (if prev_cased then c else upper_ascii c) (title_from true s')
      else if is_upper c then
        String (if prev_cased then Str.lower_ascii c else c) (title_from true s')
      else String c (title_from false s')
  end.

Definition title (s : string) : string := title_from false s.

End StrFmt.

(** A value of the dictionary [analyze] returns: an int or a float. *)
Inductive value : Type :=
| VInt (n : Z)
| VFloat (q : Q).

(** [analysis.items()], in the insertion order of the dictionary. *)
Definition items (r : Analysis) : list (string * value) :=
  [ ("channels", VInt (Z.of_N (channels r)));
    ("sample_width", VInt (Z.of_N (sample_width r)));
    ("framerate", VInt (Z.of_N (framerate_ r)));
    ("frames", VInt (Z.of_N (frames_ r)));
    ("duration_s", VFloat (duration_s r));
    ("peak_amplitude", VInt (peak_amplitude r));
    ("mean_amplitude", VFloat (mean_amplitude r)) ].

(** The text of a [drawString]: a literal, or the f-string
    [f"{label}: {value}"], kept as its two parts (the decimal text of a
    float is not modelled). *)
Inductive text : Type :=
| Plain (s : string)
| Field (label : string) (v : value).

(** What can be handed to [canvas.drawImage] as its image: a file
    name, an [ImageReader], or some other object, here the in-memory
    file ([BytesIO]) that [plot_waveform] returns. *)
Inductive image_source : Type :=
| ImgFile (path : string)
| ImgReader (img : list trace)
| ImgBuffer (img : list trace).

(** The calls made on the canvas. Vertical positions are rationals, the
    page height being one. *)
Inductive draw_op : Type :=
| SetFont (name : string) (size : Z)
| DrawString (x : Z) (y : Q) (t : text)
| DrawImage (image : image_source) (x : Z) (y : Q) (width : Z)
| ShowPage.

(** [canvas.drawImage(image, x, y, width=...)]: reportlab takes an
    [ImageReader] as it is and anything else for a file name, which it
    hands to [os.path.splitext]; for a [BytesIO] that raises
    [TypeError]. *)
Definition canvas_drawImage (image : image_source) (x : Z) (y : Q)
    (width : Z) : result draw_op :=
  match image with
  | ImgBuffer _ => Raise TypeError
  | ImgFile _ | ImgReader _ => Ok (DrawImage image x y width)
  end.

(** The document [c.save()] writes. *)
Record Pdf : Type := mk_pdf {
  pdf_path : string;
  pdf_ops : list draw_op
}.

(** The [for key, value in analysis.items()] loop: one line per item,
    [y] going down by 20; the answer is the lines and the final [y]. *)
Fixpoint draw_items (its : list (string * value)) (y : Q) : list draw_op * Q :=
  match its with
  | [] => ([], y)
  | (key, v) :: rest =>
      let line :=
        DrawString 30 y
          (Field (StrFmt.title (StrFmt.replace_char "_" " " key)) v) in
      let '(ops, y') := draw_items rest (y - 20)%Q in
      (line :: ops, y')
  end.

(** [pagesize] is reportlab's [A4], a pair (width, height).  The file is
    written by [c.save()], the last statement: a call that raises has
    written nothing.  [waveform_img] is the [BytesIO] of [plot_waveform],
    and is passed to [drawImage] as it is. *)
Definition export_pdf_report (s : AudioChecker) (output_pdf : string)
    (pagesize : Q * Q) : result Pdf :=
  match analyze s with
  | Raise e => Raise e
  | Ok analysis =>
      match plot_waveform s with
      | Raise e => Raise e
      | Ok waveform_img =>
          let height := snd pagesize in
          let '(lines, y) := draw_items (items analysis) (height - 80)%Q in
          match canvas_drawImage (ImgBuffer waveform_img) 30 (y - 300)%Q 500 with
          | Raise e => Raise e
          | Ok image_op =>
              Ok (mk_pdf output_pdf
                    ([SetFont "Helvetica-Bold" 14;
                      DrawString 30 (height - 50)%Q
                        (Plain "AudioChecker Report");
                      SetFont "Helvetica" 12]
                     ++ lines
                     ++ [image_op; ShowPage]))
          end
      end
  end.

(** ** The command line: construct, load, export *)

(** The body of [if __name__ == '__main__':] after the arguments are
    parsed: [input] and [output] are [args.input] and [args.output]. *)
Definition main (input output : string) (pagesize : Q * Q) (env : Env)
    (w : World) : World * result Pdf :=
  match init input w with
  | (w1, Raise e) => (w1, Raise e)
  | (w1, Ok checker) =>
      match load_wav env (mk_st checker w1) with
      | (st, Raise e) => (world st, Raise e)
      | (st, Ok _) => (world st, export_pdf_report (self st) output pagesize)
      end
  end.

(** ** More vocabulary *)

(** The channel [c] of a buffer of interleaved samples with [n]
    channels: the samples at flat positions [c], [n + c], [2n + c], ... *)
Definition channel_of (n : nat) (data : list Z) (c : nat) : list Z :=
  List.map (fun f => nth (f * n + c) data 0) (seq 0 (List.length data / n)).

(** The session the constructor makes for a path it accepts. *)
Definition new_checker (path : string) : AudioChecker :=
  mk_checker path None None None.

(** What a call of [load_wav] answers and the session it leaves, read
    off the environment's answers (the world left out). *)
Definition load_outcome (env : Env) (s : AudioChecker)
  : result unit * AudioChecker :=
  if Str.endswith (Str.lower (filepath s)) ".mp3" then
    match ffmpeg env (filepath s) (tmp_name env) with
    | Some e => (Raise e, s)
    | None =>
        match wave_file env (tmp_name env) with
        | OpenRaises e => (Raise e, s)
        | ReadRaises p e => (Raise e, set_params p s)
        | Frames p raw =>
            if (N.of_nat (List.length raw) =? 2 * (nframes p * nchannels p))%N
            then (Ok tt, mk_checker (filepath s) (Some p) (Some (nframes p))
                           (Some (shaped p (le_pairs raw))))
            else (Raise StructError, set_params p s)
        end
    end
  else
    match wave_file env (filepath s) with
    | OpenRaises e => (Raise e, s)
    | ReadRaises p e => (Raise e, set_params p s)
    | Frames p raw =>
        if (N.of_nat (List.length raw) =? 2 * (nframes p * nchannels p))%N
        then (Ok tt, mk_checker (filepath s) (Some p) (Some (nframes p))
                       (Some (shaped p (le_pairs raw))))
        else (Raise StructError, set_params p s)
    end.

(** The same environment with another answer of [os.remove]. *)
Definition with_remove_fails (b : bool) (env : Env) : Env :=
  mk_env (tmp_name env) (ffmpeg env) (wave_file env) b.

(** ** Concrete sessions, used as test inputs *)

Definition world0 : World := mk_world [] [].

(** A session as the constructor leaves it. *)
Definition fresh (path : string) : St :=
  mk_st (mk_checker path None None None) world0.

(** An environment in which everything works and the container read has
    parameters [p] and frame bytes [raw]. *)
Definition env_frames (p : wave_params) (raw : list byte) : Env :=
  mk_env "/tmp/tmpk3v9.wav" (fun _ _ => None) (fun _ => Frames p raw) false.

(** An environment in which ffmpeg works and the [wave] reader refuses
    the file. *)
Definition env_unreadable : Env :=
  mk_env "/tmp/tmpk3v9.wav" (fun _ _ => None) (fun _ => OpenRaises WaveError)
    false.

(** An environment in which ffmpeg exits with a non-zero status. *)
Definition env_ffmpeg_fails : Env :=
  mk_env "/tmp/tmpk3v9.wav" (fun _ _ => Some CalledProcessError)
    (fun _ => OpenRaises OSError) false.

(** Mono, 16 bit, 44100 Hz, one frame holding the sample -32768. *)
Definition params_mono_1 : wave_params := mk_params 1 2 44100 1.
Definition raw_min : list byte := [x00; x80].

(** Mono, 16 bit, 44100 Hz, no frame at all. *)
Definition params_mono_0 : wave_params := mk_params 1 2 44100 0.

(** Mono, 8 bit, 44100 Hz, no frame at all. *)
Definition params_8bit_0 : wave_params := mk_params 1 1 44100 0.

(** Mono, 8 bit, 44100 Hz, two frames of one byte each. *)
Definition params_8bit_2 : wave_params := mk_params 1 1 44100 2.

(** Mono, 32 bit declared, one frame, of which the file holds two bytes
    only. *)
Definition params_32bit_1 : wave_params := mk_params 1 4 44100 1.

(** Mono, 16 bit, frame rate 0, two frames of silence. *)
Definition params_rate_0 : wave_params := mk_params 1 2 0 2.
Definition raw_silence_2 : list byte := [x00; x00; x00; x00].

(** Stereo, 16 bit, 44100 Hz, two frames: (1, 2) and (3, -1). *)
Definition params_stereo_2 : wave_params := mk_params 2 2 44100 2.
Definition raw_stereo_2 : list byte :=
  [x01; x00; x02; x00; x03; x00; xff; xff].

(** Stereo, 16 bit, 44100 Hz, two frames: (0x1234, -32768) and
    (32767, -1). *)
Definition raw_stereo_edges : list byte :=
  [x34; x12; x00; x80; xff; x7f; xff; xff].

(** Mono, 16 bit, 44100 Hz, three frames: 0, -32767, 0. *)
Definition params_mono_3 : wave_params := mk_params 1 2 44100 3.
Definition raw_one_hot : list byte := [x00; x00; x01; x80; x00; x00].

(** * Properties *)

(** ** Paths and extensions *)

Example splitext_plain : OsPath.splitext "dir/song.WAV" = ("dir/song", ".WAV").
Proof. reflexivity. Qed.

Example splitext_hidden : OsPath.splitext "dir/.wav" = ("dir/.wav", "").
Proof. reflexivity. Qed.

Example splitext_dotdir : OsPath.splitext "a.b/song" = ("a.b/song", "").
Proof. reflexivity. Qed.

Section LowerCase.

Lemma lower_ascii_idem (a : ascii) :
  Str.lower_ascii (Str.lower_ascii a) = Str.lower_ascii a.
Proof. destruct a as [[] [] [] [] [] [] [] []]; reflexivity. Qed.

Lemma lower_ascii_dot (a : ascii) :
  Ascii.eqb (Str.lower_ascii a) "." = Ascii.eqb a ".".
Proof. destruct a as [[] [] [] [] [] [] [] []]; reflexivity. Qed.

Lemma lower_ascii_slash (a : ascii) :
  Ascii.eqb (Str.lower_ascii a) "/" = Ascii.eqb a "/".
Proof. destruct a as [[] [] [] [] [] [] [] []]; reflexivity. Qed.

Lemma lower_idem (s : string) : Str.lower (Str.lower s) = Str.lower s.
Proof.
  induction s as [|a s IH]; simpl; [reflexivity|].
  now rewrite lower_ascii_idem, IH.
Qed.

Lemma rfind_lower (c : ascii) (s : string) :
  (forall a, Ascii.eqb (Str.lower_ascii a) c = Ascii.eqb a c) ->
  Str.rfind c (Str.lower s) = Str.rfind c s.
Proof.
  intros Hc. induction s as [|a s IH]; simpl; [reflexivity|].
  now rewrite IH, Hc.
Qed.

Lemma get_lower (s : string) (n : nat) :
  String.get n (Str.lower s) = option_map Str.lower_ascii (String.get n s).
Proof.
  revert n. induction s as [|a s IH]; intros [|n]; simpl; auto.
Qed.

Lemma has_non_dot_lower (fuel i : nat) (s : string) :
  OsPath.has_non_dot fuel i (Str.lower s) = OsPath.has_non_dot fuel i s.
Proof.
  revert i. induction fuel as [|fuel IH]; intros i; simpl; [reflexivity|].
  rewrite get_lower. destruct (String.get i s) as [a|]; simpl; [|reflexivity].
  now rewrite lower_ascii_dot, IH.
Qed.

Lemma drop_lower (n : nat) (s : string) :
  Str.drop n (Str.lower s) = Str.lower (Str.drop n s).
Proof.
  revert s. induction n as [|n IH]; intros [|a s]; simpl; auto.
Qed.

(** Lowering the path and taking the extension commute. *)
Lemma splitext_lower (p : string) :
  snd (OsPath.splitext (Str.lower p)) = Str.lower (snd (OsPath.splitext p)).
Proof.
  unfold OsPath.splitext.
  rewrite !rfind_lower by (apply lower_ascii_dot || apply lower_ascii_slash).
  rewrite has_non_dot_lower.
  destruct (Str.rfind "/" p <? Str.rfind "." p); [|reflexivity].
  destruct (OsPath.has_non_dot _ _ p); simpl; [|reflexivity].
  apply drop_lower.
Qed.

End LowerCase.

(** The constructor is decided by the lowered extension alone. *)
Lemma init_result (path : string) (w : World) :
  init path w =
  (w, let ext := Str.lower (snd (OsPath.splitext path)) in
      if (String.eqb ext ".wav" || String.eqb ext ".mp3")%bool
      then Ok (mk_checker path None None None) else Raise ValueError).
Proof.
  unfold init. cbv zeta.
  now destruct (String.eqb _ ".wav" || String.eqb _ ".mp3")%bool.
Qed.

(** The characters that [str.lower] sends to each character of [.wav]
    and [.mp3]. *)
Lemma lower_ascii_is_w (c : ascii) :
  Str.lower_ascii c = "w"%char <-> c = "w"%char \/ c = "W"%char.
Proof.
  split; [|intros [->| ->]; reflexivity].
  destruct c as [[] [] [] [] [] [] [] []]; vm_compute; intros H;
    try discriminate H; auto.
Qed.

Lemma lower_ascii_is_a (c : ascii) :
  Str.lower_ascii c = "a"%char <-> c = "a"%char \/ c = "A"%char.
Proof.
  split; [|intros [->| ->]; reflexivity].
  destruct c as [[] [] [] [] [] [] [] []]; vm_compute; intros H;
    try discriminate H; auto.
Qed.

Lemma lower_ascii_is_v (c : ascii) :
  Str.lower_ascii c = "v"%char <-> c = "v"%char \/ c = "V"%char.
Proof.
  split; [|intros [->| ->]; reflexivity].
  destruct c as [[] [] [] [] [] [] [] []]; vm_compute; intros H;
    try discriminate H; auto.
Qed.

Lemma lower_ascii_is_m (c : ascii) :
  Str.lower_ascii c = "m"%char <-> c = "m"%char \/ c = "M"%char.
Proof.
  split; [|intros [->| ->]; reflexivity].
  destruct c as [[] [] [] [] [] [] [] []]; vm_compute; intros H;
    try discriminate H; auto.
Qed.

Lemma lower_ascii_is_p (c : ascii) :
  Str.lower_ascii c = "p"%char <-> c = "p"%char \/ c = "P"%char.
Proof.
  split; [|intros [->| ->]; reflexivity].
  destruct c as [[] [] [] [] [] [] [] []]; vm_compute; intros H;
    try discriminate H; auto.
Qed.

Lemma lower_ascii_is_3 (c : ascii) :
  Str.lower_ascii c = "3"%char <-> c = "3"%char.
Proof.
  split; [|intros ->; reflexivity].
  destruct c as [[] [] [] [] [] [] [] []]; vm_compute; intros H;
    try discriminate H; auto.
Qed.

Lemma lower_ascii_is_dot (c : ascii) :
  Str.lower_ascii c = "."%char <-> c = "."%char.
Proof.
  split; [|intros ->; reflexivity].
  destruct c as [[] [] [] [] [] [] [] []]; vm_compute; intros H;
    try discriminate H; auto.
Qed.

(** The strings that [str.lower] sends to [.wav], letter by letter, and
    those it sends to [.mp3]. *)
Lemma lower_is_wav (ext : string) :
  Str.lower ext = ".wav"
  <-> exists c1 c2 c3,
        ext = String "." (String c1 (String c2 (String c3 EmptyString)))
        /\ (c1 = "w"%char \/ c1 = "W"%char)
        /\ (c2 = "a"%char \/ c2 = "A"%char)
        /\ (c3 = "v"%char \/ c3 = "V"%char).
Proof.
  split.
  - destruct ext as [|a0 [|a1 [|a2 [|a3 [|a4 rest]]]]]; cbn [Str.lower];
      intros H; try discriminate H.
    injection H as H0 H1 H2 H3.
    apply (proj1 (lower_ascii_is_dot _)) in H0. apply (proj1 (lower_ascii_is_w _)) in H1.
    apply (proj1 (lower_ascii_is_a _)) in H2. apply (proj1 (lower_ascii_is_v _)) in H3.
    subst a0. exists a1, a2, a3. auto.
  - intros (c1 & c2 & c3 & -> & H1 & H2 & H3). cbn [Str.lower].
    apply (proj2 (lower_ascii_is_w _)) in H1. apply (proj2 (lower_ascii_is_a _)) in H2.
    apply (proj2 (lower_ascii_is_v _)) in H3. rewrite H1, H2, H3. reflexivity.
Qed.

Lemma lower_is_mp3 (ext : string) :
  Str.lower ext = ".mp3"
  <-> exists c1 c2,
        ext = String "." (String c1 (String c2 (String "3" EmptyString)))
        /\ (c1 = "m"%char \/ c1 = "M"%char)
        /\ (c2 = "p"%char \/ c2 = "P"%char).
Proof.
  split.
  - destruct ext as [|a0 [|a1 [|a2 [|a3 [|a4 rest]]]]]; cbn [Str.lower];
      intros H; try discriminate H.
    injection H as H0 H1 H2 H3.
    apply (proj1 (lower_ascii_is_dot _)) in H0.
    apply (proj1 (lower_ascii_is_m _)) in H1.
    apply (proj1 (lower_ascii_is_p _)) in H2.
    apply (proj1 (lower_ascii_is_3 _)) in H3.
    subst a0 a3. exists a1, a2. auto.
  - intros (c1 & c2 & -> & H1 & H2). cbn [Str.lower].
    apply (proj2 (lower_ascii_is_m _)) in H1.
    apply (proj2 (lower_ascii_is_p _)) in H2.
    rewrite H1, H2. reflexivity.
Qed.

(** C10. The extension check of the constructor does not look at the
    case of the letters: the extension is lowered before it is compared,
    so a path is refused, with [ValueError], exactly when its lowered
    extension is neither [.wav] nor [.mp3]; it is accepted otherwise; and
    a path is accepted exactly when its lower-case form is, as are any
    two paths that differ in case only.  Spelled out letter by letter:
    the accepted paths are those whose extension is a dot followed by
    [w] or [W], [a] or [A], [v] or [V], or a dot followed by [m] or [M],
    [p] or [P], and [3]. *)
Theorem init_case_insensitive :
  forall (path : string) (w : World),
    let ext := Str.lower (snd (OsPath.splitext path)) in
    (snd (init path w) = Raise ValueError <-> (ext <> ".wav" /\ ext <> ".mp3"))
    /\ (snd (init path w) = Ok (mk_checker path None None None)
        <-> (ext = ".wav" \/ ext = ".mp3"))
    /\ is_ok (snd (init path w)) = is_ok (snd (init (Str.lower path) w))
    /\ (forall path', Str.lower path' = Str.lower path ->
          is_ok (snd (init path' w)) = is_ok (snd (init path w)))
    /\ (snd (init path w) = Ok (mk_checker path None None None)
        <-> ((exists c1 c2 c3,
                snd (OsPath.splitext path)
                = String "." (String c1 (String c2 (String c3 EmptyString)))
                /\ (c1 = "w"%char \/ c1 = "W"%char)
                /\ (c2 = "a"%char \/ c2 = "A"%char)
                /\ (c3 = "v"%char \/ c3 = "V"%char))
             \/ (exists c1 c2,
                   snd (OsPath.splitext path)
                   = String "." (String c1 (String c2 (String "3" EmptyString)))
                   /\ (c1 = "m"%char \/ c1 = "M"%char)
                   /\ (c2 = "p"%char \/ c2 = "P"%char)))).
Proof.
  intros path w ext.
  assert (Hlow : forall q, is_ok (snd (init q w)) =
            (String.eqb (snd (OsPath.splitext (Str.lower q))) ".wav"
             || String.eqb (snd (OsPath.splitext (Str.lower q))) ".mp3")%bool).
  { intros q. rewrite init_result, splitext_lower. cbv zeta. simpl.
    now destruct (String.eqb _ ".wav" || String.eqb _ ".mp3")%bool. }
  assert (Hok : snd (init path w) = Ok (mk_checker path None None None)
                <-> (ext = ".wav" \/ ext = ".mp3")).
  { rewrite init_result. cbv zeta. fold ext. simpl.
    destruct (String.eqb_spec ext ".wav"); destruct (String.eqb_spec ext ".mp3");
      simpl; split; try discriminate; try tauto; auto. }
  split; [|split; [|split; [|split]]].
  - rewrite init_result. cbv zeta. fold ext. simpl.
    destruct (String.eqb_spec ext ".wav"); destruct (String.eqb_spec ext ".mp3");
      simpl; split; try discriminate; try tauto; auto.
  - exact Hok.
  - rewrite !Hlow, lower_idem. reflexivity.
  - intros q Hq. rewrite !Hlow, Hq. reflexivity.
  - rewrite Hok. unfold ext. rewrite lower_is_wav, lower_is_mp3. reflexivity.
Qed.

Lemma init_case_insensitive_upper :
  snd (init "Takes/Song.WAV" world0)
  = Ok (mk_checker "Takes/Song.WAV" None None None)
  /\ snd (init "set.Mp3" world0) = Ok (mk_checker "set.Mp3" None None None)
  /\ snd (init "song.wav" world0) = Ok (mk_checker "song.wav" None None None)
  /\ snd (init "track.FLAC" world0) = Raise ValueError.
Proof.
  split; [|split; [|split]].
  - apply (proj2 (proj1 (proj2 (init_case_insensitive "Takes/Song.WAV" world0)))).
    left. reflexivity.
  - apply (proj2 (proj1 (proj2 (init_case_insensitive "set.Mp3" world0)))).
    right. reflexivity.
  - apply (proj2 (proj1 (proj2 (init_case_insensitive "song.wav" world0)))).
    left. reflexivity.
  - apply (proj2 (proj1 (init_case_insensitive "track.FLAC" world0))).
    split; discriminate.
Defined.

(** ** Running the model *)

Example load_stereo :
  load_wav (env_frames params_stereo_2 raw_stereo_2) (fresh "a.wav") =
  (mk_st (mk_checker "a.wav" (Some params_stereo_2) (Some 2%N)
            (Some (Np.Arr2 2 [[1; 2]; [3; -1]])))
         (mk_world [] [CallWaveOpen "a.wav"]),
   Ok tt).
Proof. reflexivity. Qed.

Example analyze_stereo :
  analyze (mk_checker "a.wav" (Some params_stereo_2) (Some 2%N)
             (Some (Np.Arr2 2 [[1; 2]; [3; -1]])))
  = Ok (mk_analysis 2 2 44100 2 (2 # 44100) 3 (7 # 4)).
Proof. reflexivity. Qed.

Example plot_stereo :
  plot_waveform (mk_checker "a.wav" (Some params_stereo_2) (Some 2%N)
                   (Some (Np.Arr2 2 [[1; 2]; [3; -1]])))
  = Ok [(Some "Left", [1; 3]); (Some "Right", [2; -1])].
Proof. reflexivity. Qed.

Example analyze_one_hot :
  analyze (self (fst (load_wav (env_frames params_mono_3 raw_one_hot)
                        (fresh "a.wav"))))
  = Ok (mk_analysis 1 2 44100 3 (3 # 44100) 32767 (32767 # 3)).
Proof. reflexivity. Qed.

Example analyze_before_load :
  analyze (self (fresh "a.wav")) = Raise RuntimeError.
Proof. reflexivity. Qed.

(** ** The stages of [load_wav] *)

Ltac unfold_py :=
  cbv [bind ret raise lift get_self set_self on_world get_params
       named_temporary_file subprocess_run_ffmpeg os_remove_quiet].

Lemma le_pairs_length (raw : list byte) :
  List.length (le_pairs raw) = (List.length raw / 2)%nat.
Proof.
  assert (H : forall n raw, (List.length raw <= n)%nat ->
            List.length (le_pairs raw) = (List.length raw / 2)%nat).
  { induction n as [|n IH]; intros [|b0 [|b1 rest]] Hn; try reflexivity;
      cbn [List.length] in Hn; try lia.
    cbn [le_pairs List.length]. rewrite IH by lia.
    change (S (S (List.length rest))) with (1 * 2 + List.length rest)%nat.
    rewrite Nat.div_add_l by lia. reflexivity. }
  apply (H (List.length raw)). lia.
Qed.

Lemma le_pairs_length_exact (raw : list byte) (count : N) :
  N.of_nat (List.length raw) = (2 * count)%N ->
  List.length (le_pairs raw) = N.to_nat count.
Proof.
  intros H. rewrite le_pairs_length.
  assert (List.length raw = 2 * N.to_nat count)%nat as -> by lia.
  rewrite Nat.mul_comm. apply Nat.div_mul. lia.
Qed.

(** What [transcode] does, case by case. *)
Lemma transcode_eq (env : Env) (st : St) :
  transcode env st =
  if Str.endswith (Str.lower (filepath (self st))) ".mp3" then
    (mk_st (self st)
       (log (CallFfmpeg (filepath (self st)) (tmp_name env))
          (log (CallMkTemp (tmp_name env))
             (mk_world (tmp_name env :: temp_files (world st))
                (calls (world st))))),
     match ffmpeg env (filepath (self st)) (tmp_name env) with
     | Some e => Raise e
     | None => Ok (tmp_name env, Some (tmp_name env))
     end)
  else (st, Ok (filepath (self st), None)).
Proof.
  unfold transcode. unfold_py.
  destruct (Str.endswith _ _); [|reflexivity].
  cbn. destruct (ffmpeg env _ _); reflexivity.
Qed.

(** The stages before the unpacking never touch [self], except that
    [wave_block] stores the parameters. *)
Lemma cleanup_self (env : Env) (t : option string) (st : St) :
  self (fst (cleanup env t st)) = self st /\ snd (cleanup env t st) = Ok tt.
Proof.
  unfold cleanup. destruct t as [t|]; [destruct (Str.truthy t)|];
    unfold_py; cbn; auto.
Qed.

Lemma unpack_signal_eq (raw : list byte) (st : St) (p : wave_params) :
  params (self st) = Some p ->
  unpack_signal raw st =
  if (N.of_nat (List.length raw) =? 2 * (nframes p * nchannels p))%N
  then (mk_st (mk_checker (filepath (self st)) (Some p) (Some (nframes p))
                 (Some (shaped p (le_pairs raw)))) (world st), Ok tt)
  else (st, Raise StructError).
Proof.
  intros Hp. unfold unpack_signal, struct_unpack_h. unfold_py. rewrite Hp.
  destruct (N.eqb_spec (N.of_nat (List.length raw))
              (2 * (nframes p * nchannels p))) as [Hlen|Hlen]; [|reflexivity].
  unfold shaped. destruct (N.ltb_spec 1 (nchannels p)) as [Hc|Hc].
  - unfold Np.reshape, Np.array. cbn [Np.flat].
    pose proof (le_pairs_length_exact _ _ Hlen) as Hl.
    destruct (N.to_nat (nchannels p)) as [|n] eqn:Hn; [lia|].
    rewrite Hl.
    replace (N.to_nat (nframes p * nchannels p))
      with (N.to_nat (nframes p) * S n)%nat by lia.
    rewrite Nat.Div0.mod_mul. cbn [Nat.eqb].
    unfold set_frames, set_signal. cbn. now rewrite Hp.
  - unfold set_frames, set_signal, Np.array. cbn. now rewrite Hp.
Qed.

(** The outcome of a whole call, by what the environment answers. *)
Lemma load_wav_transcode_fails (env : Env) (st : St) :
  transcode_ok env (self st) = false ->
  exists e, snd (load_wav env st) = Raise e
            /\ self (fst (load_wav env st)) = self st.
Proof.
  unfold transcode_ok, load_wav, bind. rewrite transcode_eq.
  destruct (Str.endswith _ _); [|discriminate].
  destruct (ffmpeg env _ _) as [e|]; [|discriminate].
  intros _. exists e. split; reflexivity.
Qed.

Lemma load_wav_open_raises (env : Env) (st : St) (e : exn) :
  transcode_ok env (self st) = true ->
  wave_file env (source_path env (self st)) = OpenRaises e ->
  snd (load_wav env st) = Raise e
  /\ self (fst (load_wav env st)) = self st.
Proof.
  unfold transcode_ok, source_path, load_wav, bind. rewrite transcode_eq.
  destruct (Str.endswith _ _).
  - destruct (ffmpeg env _ _); [discriminate|]. intros _ Hw.
    unfold wave_block. unfold_py. cbn. rewrite Hw. split; reflexivity.
  - intros _ Hw. unfold wave_block. unfold_py. cbn. rewrite Hw.
    split; reflexivity.
Qed.

Lemma load_wav_read_raises (env : Env) (st : St) (p : wave_params) (e : exn) :
  transcode_ok env (self st) = true ->
  wave_file env (source_path env (self st)) = ReadRaises p e ->
  snd (load_wav env st) = Raise e
  /\ self (fst (load_wav env st)) = set_params p (self st).
Proof.
  unfold transcode_ok, source_path, load_wav, bind. rewrite transcode_eq.
  destruct (Str.endswith _ _).
  - destruct (ffmpeg env _ _); [discriminate|]. intros _ Hw.
    unfold wave_block. unfold_py. cbn. rewrite Hw. split; reflexivity.
  - intros _ Hw. unfold wave_block. unfold_py. cbn. rewrite Hw.
    split; reflexivity.
Qed.

Lemma load_wav_frames (env : Env) (st : St) (p : wave_params) (raw : list byte) :
  transcode_ok env (self st) = true ->
  wave_file env (source_path env (self st)) = Frames p raw ->
  (snd (load_wav env st),  self (fst (load_wav env st))) =
  if (N.of_nat (List.length raw) =? 2 * (nframes p * nchannels p))%N
  then (Ok tt, mk_checker (filepath (self st)) (Some p) (Some (nframes p))
                 (Some (shaped p (le_pairs raw))))
  else (Raise StructError, set_params p (self st)).
Proof.
  unfold transcode_ok, source_path, load_wav, bind. rewrite transcode_eq.
  destruct (Str.endswith _ _).
  - destruct (ffmpeg env _ _); [discriminate|]. intros _ Hw.
    unfold wave_block. unfold_py. cbn [fst snd self world]. rewrite Hw.
    match goal with |- context [cleanup env ?t ?s] =>
      destruct (cleanup_self env t s) as [Hs Hr];
      destruct (cleanup env t s) as [st1 r1] eqn:Hc end.
    cbn [fst snd self] in Hs, Hr. subst r1.
    rewrite (unpack_signal_eq raw st1 p) by (rewrite Hs; reflexivity).
    destruct (N.eqb _ _); cbn [fst snd self]; rewrite ?Hs; reflexivity.
  - intros _ Hw.
    unfold wave_block. unfold_py. cbn [fst snd self world]. rewrite Hw.
    match goal with |- context [cleanup env ?t ?s] =>
      destruct (cleanup_self env t s) as [Hs Hr];
      destruct (cleanup env t s) as [st1 r1] eqn:Hc end.
    cbn [fst snd self] in Hs, Hr. subst r1.
    rewrite (unpack_signal_eq raw st1 p) by (rewrite Hs; reflexivity).
    destruct (N.eqb _ _); cbn [fst snd self]; rewrite ?Hs; reflexivity.
Qed.

(** A call that returns normally has read frames of exactly the size the
    format asks for, and leaves the session in one definite state. *)
Lemma load_wav_ok_inv (env : Env) (st : St) :
  snd (load_wav env st) = Ok tt ->
  transcode_ok env (self st) = true /\
  exists p raw,
    wave_file env (source_path env (self st)) = Frames p raw
    /\ N.of_nat (List.length raw) = (2 * (nframes p * nchannels p))%N
    /\ self (fst (load_wav env st)) =
       mk_checker (filepath (self st)) (Some p) (Some (nframes p))
         (Some (shaped p (le_pairs raw))).
Proof.
  intros Hok.
  destruct (transcode_ok env (self st)) eqn:Ht.
  2:{ destruct (load_wav_transcode_fails env st Ht) as (e & He & _).
      rewrite He in Hok. discriminate. }
  split; [reflexivity|].
  destruct (wave_file env (source_path env (self st))) as [e|p e|p raw] eqn:Hw.
  - destruct (load_wav_open_raises env st e Ht Hw) as [He _].
    rewrite He in Hok. discriminate.
  - destruct (load_wav_read_raises env st p e Ht Hw) as [He _].
    rewrite He in Hok. discriminate.
  - exists p, raw. pose proof (load_wav_frames env st p raw Ht Hw) as H.
    destruct (N.eqb_spec (N.of_nat (List.length raw))
                (2 * (nframes p * nchannels p))) as [Hlen|Hlen];
      inversion H as [[H1 H2]].
    + auto.
    + rewrite H1 in Hok. discriminate.
Qed.

(** A call that raises leaves [self.signal] as it was. *)
Lemma load_wav_raise_signal (env : Env) (st : St) (e : exn) :
  snd (load_wav env st) = Raise e ->
  signal (self (fst (load_wav env st))) = signal (self st).
Proof.
  intros Hr.
  destruct (transcode_ok env (self st)) eqn:Ht.
  2:{ destruct (load_wav_transcode_fails env st Ht) as (e' & _ & Hs).
      now rewrite Hs. }
  destruct (wave_file env (source_path env (self st))) as [e'|p e'|p raw] eqn:Hw.
  - destruct (load_wav_open_raises env st e' Ht Hw) as [_ Hs]. now rewrite Hs.
  - destruct (load_wav_read_raises env st p e' Ht Hw) as [_ Hs]. now rewrite Hs.
  - pose proof (load_wav_frames env st p raw Ht Hw) as H.
    destruct (N.eqb (N.of_nat (List.length raw))
                (2 * (nframes p * nchannels p))); inversion H as [[H1 H2]].
    + rewrite H1 in Hr. discriminate.
    + rewrite H2. reflexivity.
Qed.

(** ** Samples *)

Lemma byte_val_range (b : byte) : 0 <= byte_val b <= 255.
Proof.
  unfold byte_val. pose proof (Byte.to_N_bounded b). lia.
Qed.

Lemma u16_range (b0 b1 : byte) :
  0 <= Z.lor (byte_val b0) (Z.shiftl (byte_val b1) 8) < 65536.
Proof.
  pose proof (byte_val_range b0) as H0. pose proof (byte_val_range b1) as H1.
  assert (Hs : 0 <= Z.shiftl (byte_val b1) 8 < 65536).
  { rewrite Z.shiftl_mul_pow2 by lia. change (2 ^ 8) with 256. lia. }
  split; [apply Z.lor_nonneg; lia|].
  set (u := Z.lor _ _).
  assert (Hu : 0 <= u) by (apply Z.lor_nonneg; lia).
  destruct (Z.eq_dec u 0) as [->|Hnz]; [lia|].
  change 65536 with (2 ^ 16). apply Z.log2_lt_pow2; [lia|].
  unfold u. rewrite Z.log2_lor by lia.
  apply Z.max_lub_lt.
  - destruct (Z.eq_dec (byte_val b0) 0) as [->|]; [cbn; lia|].
    apply Z.log2_lt_pow2; [lia|]. change (2 ^ 16) with 65536. lia.
  - destruct (Z.eq_dec (Z.shiftl (byte_val b1) 8) 0) as [->|]; [cbn; lia|].
    apply Z.log2_lt_pow2; [lia|]. change (2 ^ 16) with 65536. lia.
Qed.

(** Every unpacked item is a signed 16-bit value. *)
Lemma s16le_range (b0 b1 : byte) : -32768 <= s16le b0 b1 <= 32767.
Proof.
  unfold s16le. cbv zeta. pose proof (u16_range b0 b1) as Hu.
  set (u := Z.lor _ _) in *.
  destruct (Z.testbit u 15) eqn:Hb.
  - apply Z.testbit_true in Hb; [|lia]. change (2 ^ 15) with 32768 in Hb.
    assert (32768 <= u); [|lia].
    destruct (Z_lt_le_dec u 32768) as [Hlt|]; [|assumption].
    rewrite Z.div_small in Hb by lia. discriminate.
  - assert (u < 32768); [|lia].
    destruct (Z_lt_le_dec u 32768) as [|Hge]; [assumption|].
    assert (Ht : Z.testbit u 15 = true).
    { apply Z.testbit_true; [lia|]. change (2 ^ 15) with 32768.
      assert (u / 32768 = 1) as ->; [|reflexivity].
      symmetry. apply (Z.div_unique u 32768 1 (u - 32768)); lia. }
    congruence.
Qed.

Lemma le_pairs_range (raw : list byte) (x : Z) :
  In x (le_pairs raw) -> -32768 <= x <= 32767.
Proof.
  assert (H : forall n raw, (List.length raw <= n)%nat ->
            In x (le_pairs raw) -> -32768 <= x <= 32767).
  { induction n as [|n IH]; intros [|b0 [|b1 rest]] Hn; cbn; try tauto;
      cbn in Hn; try lia.
    intros [<-|Hin]; [apply s16le_range|]. apply (IH rest); [lia|assumption]. }
  apply (H (List.length raw)). lia.
Qed.

(** Item [i] of the unpacked sequence is made of bytes [2i] and [2i+1]. *)
Lemma le_pairs_nth (raw : list byte) (i : nat) (d : byte) :
  (2 * i + 1 < List.length raw)%nat ->
  nth i (le_pairs raw) 0 = s16le (nth (2 * i) raw d) (nth (2 * i + 1) raw d).
Proof.
  revert raw. induction i as [|i IH]; intros [|b0 [|b1 rest]] Hi;
    cbn [List.length] in Hi; try lia.
  - reflexivity.
  - cbn [le_pairs]. cbn [nth].
    replace (2 * S i)%nat with (S (S (2 * i))) by lia.
    replace (S (S (2 * i)) + 1)%nat with (S (S (2 * i + 1))) by lia.
    cbn [nth]. apply IH. lia.
Qed.

(** ** Arrays *)

Section Arrays.

Lemma firstn_plus (a b : nat) (l : list Z) :
  firstn (a + b) l = firstn a l ++ firstn b (skipn a l).
Proof.
  revert l. induction a as [|a IH]; intros [|x l]; cbn;
    try reflexivity.
  - now rewrite firstn_nil.
  - now rewrite IH.
Qed.

(** The first [k] rows of a reshaped array, laid end to end, are the first
    [k * n] values of the data. *)
Lemma concat_chunks (n k : nat) (data : list Z) :
  List.concat (List.map (Np.chunk n data) (seq 0 k)) = firstn (k * n) data.
Proof.
  induction k as [|k IH]; [reflexivity|].
  rewrite seq_S, List.map_app, List.concat_app, IH. cbn [List.map List.concat].
  rewrite List.app_nil_r. unfold Np.chunk. cbn [Nat.add].
  replace (S k * n)%nat with (k * n + n)%nat by lia.
  symmetry. apply firstn_plus.
Qed.

(** Reshaping keeps the values and their order. *)
Lemma flat_shaped (p : wave_params) (data : list Z) :
  List.length data = N.to_nat (nframes p * nchannels p) ->
  Np.flat (shaped p data) = data.
Proof.
  intros Hl. unfold shaped.
  destruct (N.ltb_spec 1 (nchannels p)) as [Hc|Hc]; [|reflexivity].
  cbn [Np.flat]. rewrite concat_chunks.
  replace (List.length data / N.to_nat (nchannels p) * N.to_nat (nchannels p))%nat
    with (List.length data); [apply firstn_all|].
  rewrite Hl.
  replace (N.to_nat (nframes p * nchannels p))
    with (N.to_nat (nframes p) * N.to_nat (nchannels p))%nat by lia.
  rewrite Nat.div_mul by lia. reflexivity.
Qed.

Lemma flat_abs (a : Np.ndarray) :
  Np.flat (Np.abs a) = List.map Z.abs (Np.flat a).
Proof.
  destruct a as [d|n rows]; cbn; [reflexivity|].
  symmetry. apply concat_map.
Qed.

(** Flat index [i] of the data sits in row [i / n], column [i mod n]. *)
Lemma sample_at_shaped (p : wave_params) (data : list Z) (i : nat) :
  (1 < nchannels p)%N ->
  List.length data = N.to_nat (nframes p * nchannels p) ->
  (i < List.length data)%nat ->
  sample_at (shaped p data)
    (i / N.to_nat (nchannels p)) (i mod N.to_nat (nchannels p))
  = nth i data 0.
Proof.
  intros Hc Hl Hi. unfold shaped.
  destruct (N.ltb_spec 1 (nchannels p)) as [_|]; [|lia].
  set (n := N.to_nat (nchannels p)) in *.
  assert (Hn : (1 < n)%nat) by (unfold n; lia).
  assert (Hrows : (List.length data / n = N.to_nat (nframes p))%nat).
  { rewrite Hl.
    replace (N.to_nat (nframes p * nchannels p))
      with (N.to_nat (nframes p) * n)%nat by (unfold n; lia).
    apply Nat.div_mul. lia. }
  assert (Hf : (i / n < List.length data / n)%nat).
  { rewrite Hrows. apply Nat.Div0.div_lt_upper_bound.
    rewrite Hl in Hi. unfold n. lia. }
  cbn [sample_at].
  rewrite (nth_indep _ [] (Np.chunk n data 0))
    by (rewrite List.length_map, List.length_seq; exact Hf).
  rewrite List.map_nth, seq_nth by exact Hf. cbn [Nat.add].
  unfold Np.chunk. rewrite nth_firstn.
  assert (Hm : (i mod n < n)%nat) by (apply Nat.mod_upper_bound; lia).
  apply Nat.ltb_lt in Hm. rewrite Hm, nth_skipn.
  f_equal. rewrite (Nat.div_mod_eq i n) at 3. lia.
Qed.

(** [np.max] is a value of the array and no value is above it. *)
Lemma fold_max_ge (l : list Z) (x : Z) :
  x <= List.fold_left Z.max l x
  /\ forall y, In y l -> y <= List.fold_left Z.max l x.
Proof.
  revert x. induction l as [|a l IH]; intros x; cbn; [split; [lia|tauto]|].
  destruct (IH (Z.max x a)) as [H1 H2]. split; [lia|].
  intros y [<-|Hy]; [lia|auto].
Qed.

Lemma fold_max_in (l : list Z) (x : Z) :
  List.fold_left Z.max l x = x \/ In (List.fold_left Z.max l x) l.
Proof.
  revert x. induction l as [|a l IH]; intros x; cbn; [auto|].
  destruct (IH (Z.max x a)) as [H|H]; [|auto].
  rewrite H. destruct (Z.max_spec x a) as [[_ ->]|[_ ->]]; auto.
Qed.

Lemma np_max_spec (a : Np.ndarray) (m : Z) :
  Np.max a = Ok m ->
  In m (Np.flat a) /\ forall y, In y (Np.flat a) -> y <= m.
Proof.
  unfold Np.max. destruct (Np.flat a) as [|x xs]; [discriminate|].
  intros H. inversion H as [Hm]. clear H.
  destruct (fold_max_ge xs x) as [H1 H2].
  split.
  - destruct (fold_max_in xs x) as [->|Hin]; [left; reflexivity|right; exact Hin].
  - intros y [<-|Hy]; auto.
Qed.

Lemma np_max_ok (a : Np.ndarray) :
  Np.flat a <> [] -> exists m, Np.max a = Ok m.
Proof.
  unfold Np.max. destruct (Np.flat a) as [|x xs]; [congruence|eauto].
Qed.

Lemma np_max_empty (a : Np.ndarray) :
  Np.flat a = [] -> Np.max a = Raise ValueError.
Proof. unfold Np.max. now intros ->. Qed.

End Arrays.

(** ** The constructor *)

(** C7. A path whose extension, compared without regard to case, is
    neither [.wav] nor [.mp3] is refused by the constructor with
    [ValueError], and the constructor has not touched the world: no
    temporary file was created and no call to the operating system was
    made. *)
Theorem init_unsupported_extension :
  forall (path : string) (w : World),
    Str.lower (snd (OsPath.splitext path)) <> ".wav" ->
    Str.lower (snd (OsPath.splitext path)) <> ".mp3" ->
    snd (init path w) = Raise ValueError
    /\ fst (init path w) = w
    /\ calls (fst (init path w)) = calls w
    /\ temp_files (fst (init path w)) = temp_files w.
Proof.
  intros path w Hw Hm. rewrite init_result. cbv zeta. cbn [fst snd].
  destruct (String.eqb_spec (Str.lower (snd (OsPath.splitext path))) ".wav");
    [contradiction|].
  destruct (String.eqb_spec (Str.lower (snd (OsPath.splitext path))) ".mp3");
    [contradiction|].
  cbn. auto.
Qed.

Lemma init_unsupported_extension_flac :
  snd (init "album/track01.flac" world0) = Raise ValueError
  /\ fst (init "album/track01.flac" world0) = world0
  /\ calls (fst (init "album/track01.flac" world0)) = calls world0
  /\ temp_files (fst (init "album/track01.flac" world0)) = temp_files world0.
Proof.
  apply (init_unsupported_extension "album/track01.flac" world0);
    vm_compute; discriminate.
Defined.

(** ** [analyze] on a loaded session *)

(** [analyze] on a session whose four attributes are set. *)
Lemma analyze_set (path : string) (p : wave_params) (n : N) (sig : Np.ndarray) :
  analyze (mk_checker path (Some p) (Some n) (Some sig)) =
  if (framerate p =? 0)%N then Raise ZeroDivisionError
  else match Np.max (Np.abs sig) with
       | Raise e => Raise e
       | Ok peak =>
           Ok (mk_analysis (nchannels p) (sampwidth p) (framerate p) n
                 (inject_Z (Z.of_N n) / inject_Z (Z.of_N (framerate p)))%Q
                 peak (Np.mean (Np.abs sig)))
       end.
Proof.
  unfold analyze, true_div. cbn [signal params frames].
  destruct (framerate p =? 0)%N; [reflexivity|].
  destruct (Np.max (Np.abs sig)); reflexivity.
Qed.

(** The session a successful [load_wav] leaves: its parameters, its
    frame count and its samples, which are all signed 16-bit values. *)
Lemma loaded_session (env : Env) (st : St) :
  snd (load_wav env st) = Ok tt ->
  exists p sig,
    self (fst (load_wav env st)) =
      mk_checker (filepath (self st)) (Some p) (Some (nframes p)) (Some sig)
    /\ List.length (Np.flat sig) = N.to_nat (nframes p * nchannels p)
    /\ (forall x, In x (Np.flat sig) -> -32768 <= x <= 32767).
Proof.
  intros Hok. destruct (load_wav_ok_inv env st Hok) as (_ & p & raw & _ & Hl & Hs).
  exists p, (shaped p (le_pairs raw)).
  pose proof (le_pairs_length_exact _ _ Hl) as Hlen.
  rewrite flat_shaped by exact Hlen.
  split; [exact Hs|]. split; [exact Hlen|].
  intros x. apply le_pairs_range.
Qed.

Lemma in_map_abs (l : list Z) (y : Z) :
  In y (List.map Z.abs l) -> exists x, In x l /\ Z.abs x = y.
Proof.
  intros H. apply List.in_map_iff in H. destruct H as (x & Hx & Hin). eauto.
Qed.

Lemma one_hot_abs_le (i : nat) (v : Z) (l : list Z) (x : Z) :
  one_hot i v l -> In x l -> Z.abs x <= Z.abs v.
Proof.
  intros (Hi & Hv & Hz) Hin.
  destruct (In_nth l x 0 Hin) as (j & Hj & <-).
  destruct (Nat.eq_dec j i) as [->|Hne]; [rewrite Hv; lia|].
  rewrite (Hz j Hj Hne). cbn. lia.
Qed.

(** C1 (amended). On a loaded session [analyze] returns exactly when
    the buffer holds at least one sample and the frame rate is not zero.
    The [peak_amplitude] it returns is the largest absolute value among
    all samples of all channels: it is the absolute value of one of the
    samples and no sample exceeds it; it lies in the range 0..32768, the
    upper end being reached by the sample -32768; and on a buffer with one
    sample [v] and zeros elsewhere it is the absolute value of [v], hence
    32767 when [v] is 32767 or -32767. *)
Theorem peak_amplitude_loaded :
  forall (env : Env) (st : St),
    snd (load_wav env st) = Ok tt ->
    exists p sig,
      params (self (fst (load_wav env st))) = Some p
      /\ signal (self (fst (load_wav env st))) = Some sig
      /\ ((exists r, analyze (self (fst (load_wav env st))) = Ok r)
          <-> (Np.flat sig <> [] /\ framerate p <> 0%N))
      /\ forall r, analyze (self (fst (load_wav env st))) = Ok r ->
           0 <= peak_amplitude r <= 32768
           /\ (exists x, In x (Np.flat sig) /\ Z.abs x = peak_amplitude r)
           /\ (forall x, In x (Np.flat sig) -> Z.abs x <= peak_amplitude r)
           /\ (forall i v, one_hot i v (Np.flat sig) ->
                 peak_amplitude r = Z.abs v)
           /\ (forall i v, one_hot i v (Np.flat sig) ->
                 v = 32767 \/ v = -32767 -> peak_amplitude r = 32767).
Proof.
  intros env st Hok.
  destruct (loaded_session env st Hok) as (p & sig & Hs & Hlen & Hrange).
  exists p, sig. rewrite Hs. cbn [params signal].
  split; [reflexivity|]. split; [reflexivity|].
  rewrite analyze_set.
  assert (Hmax : forall m, Np.max (Np.abs sig) = Ok m ->
            (exists x, In x (Np.flat sig) /\ Z.abs x = m)
            /\ forall x, In x (Np.flat sig) -> Z.abs x <= m).
  { intros m Hm. apply np_max_spec in Hm. rewrite flat_abs in Hm.
    destruct Hm as [Hin Hle]. split; [apply in_map_abs; exact Hin|].
    intros x Hx. apply Hle. apply List.in_map. exact Hx. }
  split.
  - split.
    + intros [r Hr]. destruct (N.eqb_spec (framerate p) 0); [discriminate|].
      split; [|assumption]. intros Hnil.
      rewrite (np_max_empty (Np.abs sig)) in Hr; [discriminate|].
      rewrite flat_abs, Hnil. reflexivity.
    + intros [Hne Hfr]. destruct (N.eqb_spec (framerate p) 0); [contradiction|].
      destruct (np_max_ok (Np.abs sig)) as [m ->]; [|eauto].
      rewrite flat_abs. destruct (Np.flat sig); [congruence|discriminate].
  - intros r Hr. destruct (framerate p =? 0)%N; [discriminate|].
    destruct (Np.max (Np.abs sig)) as [m|e] eqn:Hm; [|discriminate].
    inversion Hr as [Hr']. cbn [peak_amplitude]. clear Hr Hr'.
    destruct (Hmax m eq_refl) as [(x & Hx & Hxm) Hle].
    assert (Hone : forall i v, one_hot i v (Np.flat sig) -> m = Z.abs v).
    { intros i v Hoh. apply Z.le_antisymm.
      - rewrite <- Hxm. apply (one_hot_abs_le i v _ x Hoh Hx).
      - apply Hle. destruct Hoh as (Hi & <- & _). apply nth_In. exact Hi. }
    repeat split.
    + rewrite <- Hxm. lia.
    + rewrite <- Hxm. pose proof (Hrange x Hx). lia.
    + exists x. auto.
    + exact Hle.
    + exact Hone.
    + intros i v Hoh Hv. rewrite (Hone i v Hoh). lia.
Qed.

Lemma peak_amplitude_loaded_one_hot :
  snd (load_wav (env_frames params_mono_3 raw_one_hot) (fresh "a.wav")) = Ok tt
  /\ exists p sig,
      params (self (fst (load_wav (env_frames params_mono_3 raw_one_hot)
                           (fresh "a.wav")))) = Some p
      /\ signal (self (fst (load_wav (env_frames params_mono_3 raw_one_hot)
                              (fresh "a.wav")))) = Some sig
      /\ ((exists r, analyze (self (fst (load_wav
                       (env_frames params_mono_3 raw_one_hot)
                       (fresh "a.wav")))) = Ok r)
          <-> (Np.flat sig <> [] /\ framerate p <> 0%N))
      /\ forall r, analyze (self (fst (load_wav
                     (env_frames params_mono_3 raw_one_hot)
                     (fresh "a.wav")))) = Ok r ->
           0 <= peak_amplitude r <= 32768
           /\ (exists x, In x (Np.flat sig) /\ Z.abs x = peak_amplitude r)
           /\ (forall x, In x (Np.flat sig) -> Z.abs x <= peak_amplitude r)
           /\ (forall i v, one_hot i v (Np.flat sig) ->
                 peak_amplitude r = Z.abs v)
           /\ (forall i v, one_hot i v (Np.flat sig) ->
                 v = 32767 \/ v = -32767 -> peak_amplitude r = 32767).
Proof.
  split; [reflexivity|].
  apply (peak_amplitude_loaded (env_frames params_mono_3 raw_one_hot)
           (fresh "a.wav")).
  reflexivity.
Defined.

(** C1, as stated, fails: the one-frame mono file whose sample is -32768
    loads, and [analyze] returns [peak_amplitude = 32768], outside
    0..32767. *)
Lemma peak_amplitude_exceeds_32767 :
  snd (load_wav (env_frames params_mono_1 raw_min) (fresh "a.wav")) = Ok tt
  /\ signal (self (fst (load_wav (env_frames params_mono_1 raw_min)
                          (fresh "a.wav")))) = Some (Np.Arr1 [-32768])
  /\ exists r,
       analyze (self (fst (load_wav (env_frames params_mono_1 raw_min)
                             (fresh "a.wav")))) = Ok r
       /\ peak_amplitude r = 32768
       /\ ~ (0 <= peak_amplitude r <= 32767).
Proof.
  split; [reflexivity|]. split; [reflexivity|].
  eexists. split; [reflexivity|]. cbn. split; [reflexivity|lia].
Qed.

(** C5 (amended). On a loaded session whose buffer holds at least one
    sample and whose frame rate is positive, [analyze] returns, and its
    [duration_s] is the quotient of the frame count by the frame rate
    (the rational that Python's true division rounds to a float); on a
    loaded session whose frame rate is zero, [analyze] raises
    [ZeroDivisionError]. *)
Theorem duration_loaded :
  forall (env : Env) (st : St),
    snd (load_wav env st) = Ok tt ->
    exists p,
      params (self (fst (load_wav env st))) = Some p
      /\ frames (self (fst (load_wav env st))) = Some (nframes p)
      /\ (framerate p = 0%N ->
          analyze (self (fst (load_wav env st))) = Raise ZeroDivisionError)
      /\ ((0 < framerate p)%N -> (0 < nframes p * nchannels p)%N ->
          exists r,
            analyze (self (fst (load_wav env st))) = Ok r
            /\ frames_ r = nframes p
            /\ framerate_ r = framerate p
            /\ (duration_s r ==
                inject_Z (Z.of_N (nframes p)) / inject_Z (Z.of_N (framerate p)))%Q).
Proof.
  intros env st Hok.
  destruct (loaded_session env st Hok) as (p & sig & Hs & Hlen & _).
  exists p. rewrite Hs. cbn [params frames].
  split; [reflexivity|]. split; [reflexivity|].
  rewrite analyze_set. split.
  - intros ->. reflexivity.
  - intros Hfr Hn. destruct (N.eqb_spec (framerate p) 0); [lia|].
    destruct (np_max_ok (Np.abs sig)) as [m ->].
    + rewrite flat_abs. intros Hnil.
      apply (f_equal (@List.length Z)) in Hnil.
      rewrite List.length_map, Hlen in Hnil. cbn in Hnil. lia.
    + eexists. split; [reflexivity|].
      cbn [frames_ framerate_ duration_s]. repeat split; reflexivity.
Qed.

Lemma duration_loaded_stereo :
  snd (load_wav (env_frames params_stereo_2 raw_stereo_2) (fresh "a.wav")) = Ok tt
  /\ exists p,
      params (self (fst (load_wav (env_frames params_stereo_2 raw_stereo_2)
                           (fresh "a.wav")))) = Some p
      /\ frames (self (fst (load_wav (env_frames params_stereo_2 raw_stereo_2)
                              (fresh "a.wav")))) = Some (nframes p)
      /\ (framerate p = 0%N ->
          analyze (self (fst (load_wav (env_frames params_stereo_2 raw_stereo_2)
                                (fresh "a.wav")))) = Raise ZeroDivisionError)
      /\ ((0 < framerate p)%N -> (0 < nframes p * nchannels p)%N ->
          exists r,
            analyze (self (fst (load_wav (env_frames params_stereo_2 raw_stereo_2)
                                  (fresh "a.wav")))) = Ok r
            /\ frames_ r = nframes p
            /\ framerate_ r = framerate p
            /\ (duration_s r ==
                inject_Z (Z.of_N (nframes p)) / inject_Z (Z.of_N (framerate p)))%Q).
Proof.
  split; [reflexivity|].
  apply (duration_loaded (env_frames params_stereo_2 raw_stereo_2)
           (fresh "a.wav")).
  reflexivity.
Defined.

(** C5, as stated, fails: a file with a positive frame rate and no frame
    loads, and [analyze] returns no duration: [np.max] raises
    [ValueError] on the empty buffer. *)
Lemma duration_missing_on_empty_buffer :
  snd (load_wav (env_frames params_mono_0 []) (fresh "a.wav")) = Ok tt
  /\ option_map framerate
       (params (self (fst (load_wav (env_frames params_mono_0 [])
                             (fresh "a.wav"))))) = Some 44100%N
  /\ analyze (self (fst (load_wav (env_frames params_mono_0 [])
                          (fresh "a.wav")))) = Raise ValueError
  /\ ~ (exists r, analyze (self (fst (load_wav (env_frames params_mono_0 [])
                                       (fresh "a.wav")))) = Ok r).
Proof.
  split; [reflexivity|]. split; [reflexivity|]. split; [reflexivity|].
  intros [r Hr]. discriminate Hr.
Qed.

(** ** The mean *)

Lemma sum_shift (l : list Z) (a : Z) :
  List.fold_left Z.add l a = a + Np.sum l.
Proof.
  unfold Np.sum. revert a. induction l as [|x l IH]; intros a; cbn; [lia|].
  rewrite IH, (IH x). lia.
Qed.

Lemma sum_cons (x : Z) (l : list Z) : Np.sum (x :: l) = x + Np.sum l.
Proof. unfold Np.sum at 1. cbn. apply sum_shift. Qed.

Lemma sum_abs_zero (l : list Z) :
  (forall x, In x l -> x = 0) -> Np.sum (List.map Z.abs l) = 0.
Proof.
  induction l as [|x l IH]; intros H; [reflexivity|].
  cbn [List.map]. rewrite sum_cons, IH by (intros; apply H; now right).
  rewrite (H x) by now left. reflexivity.
Qed.

Lemma sum_abs_one_hot (l : list Z) (i : nat) (v : Z) :
  one_hot i v l -> Np.sum (List.map Z.abs l) = Z.abs v.
Proof.
  revert i. induction l as [|x l IH]; intros i (Hi & Hv & Hz).
  - cbn in Hi. lia.
  - cbn [List.map]. rewrite sum_cons. destruct i as [|i].
    + cbn in Hv. subst x. rewrite sum_abs_zero; [lia|].
      intros y Hy. destruct (In_nth l y 0 Hy) as (j & Hj & <-).
      apply (Hz (S j)); cbn; lia.
    + rewrite (IH i).
      * assert (x = 0) as -> by (apply (Hz 0%nat); cbn; lia). cbn. lia.
      * split; [cbn in Hi; lia|]. split; [exact Hv|].
        intros j Hj Hne. apply (Hz (S j)); cbn; lia.
Qed.

(** C8 (amended). On a loaded session whose frame rate is positive:
    if the buffer holds at least one sample and all its samples are zero,
    [analyze] returns [mean_amplitude = 0]; if the buffer of [N] samples
    has one sample [v] and zeros elsewhere, [analyze] returns
    [mean_amplitude = |v| / N] (the rational that numpy rounds to a
    float). *)
Theorem mean_amplitude_loaded :
  forall (env : Env) (st : St),
    snd (load_wav env st) = Ok tt ->
    exists p sig,
      params (self (fst (load_wav env st))) = Some p
      /\ signal (self (fst (load_wav env st))) = Some sig
      /\ ((0 < framerate p)%N ->
          (Np.flat sig <> [] ->
           (forall x, In x (Np.flat sig) -> x = 0) ->
           exists r, analyze (self (fst (load_wav env st))) = Ok r
                     /\ (mean_amplitude r == 0)%Q)
          /\ (forall i v, one_hot i v (Np.flat sig) ->
              exists r, analyze (self (fst (load_wav env st))) = Ok r
                /\ (mean_amplitude r ==
                    inject_Z (Z.abs v)
                    / inject_Z (Z.of_nat (List.length (Np.flat sig))))%Q)).
Proof.
  intros env st Hok.
  destruct (loaded_session env st Hok) as (p & sig & Hs & Hlen & _).
  exists p, sig. rewrite Hs. cbn [params signal].
  split; [reflexivity|]. split; [reflexivity|].
  intros Hfr. rewrite analyze_set.
  destruct (N.eqb_spec (framerate p) 0); [lia|].
  assert (Hret : Np.flat sig <> [] -> exists m, Np.max (Np.abs sig) = Ok m).
  { intros Hne. apply np_max_ok. rewrite flat_abs.
    destruct (Np.flat sig); [congruence|discriminate]. }
  split.
  - intros Hne Hzero. destruct (Hret Hne) as [m ->].
    eexists. split; [reflexivity|]. cbn [mean_amplitude]. unfold Np.mean.
    rewrite flat_abs, sum_abs_zero by exact Hzero.
    unfold Qdiv. apply Qmult_0_l.
  - intros i v Hoh. destruct Hret as [m ->].
    + destruct Hoh as (Hi & _). destruct (Np.flat sig); [cbn in Hi; lia|discriminate].
    + eexists. split; [reflexivity|]. cbn [mean_amplitude]. unfold Np.mean.
      rewrite flat_abs, (sum_abs_one_hot _ i v Hoh), List.length_map.
      reflexivity.
Qed.

Lemma mean_amplitude_loaded_one_hot :
  snd (load_wav (env_frames params_mono_3 raw_one_hot) (fresh "a.wav")) = Ok tt
  /\ exists p sig,
      params (self (fst (load_wav (env_frames params_mono_3 raw_one_hot)
                           (fresh "a.wav")))) = Some p
      /\ signal (self (fst (load_wav (env_frames params_mono_3 raw_one_hot)
                              (fresh "a.wav")))) = Some sig
      /\ ((0 < framerate p)%N ->
          (Np.flat sig <> [] ->
           (forall x, In x (Np.flat sig) -> x = 0) ->
           exists r, analyze (self (fst (load_wav
                       (env_frames params_mono_3 raw_one_hot)
                       (fresh "a.wav")))) = Ok r
                     /\ (mean_amplitude r == 0)%Q)
          /\ (forall i v, one_hot i v (Np.flat sig) ->
              exists r, analyze (self (fst (load_wav
                          (env_frames params_mono_3 raw_one_hot)
                          (fresh "a.wav")))) = Ok r
                /\ (mean_amplitude r ==
                    inject_Z (Z.abs v)
                    / inject_Z (Z.of_nat (List.length (Np.flat sig))))%Q)).
Proof.
  split; [reflexivity|].
  apply (mean_amplitude_loaded (env_frames params_mono_3 raw_one_hot)
           (fresh "a.wav")).
  reflexivity.
Defined.

(** C8, as stated, fails on loaded buffers of zeros for which [analyze]
    returns nothing: two frames of silence under a frame rate of zero
    ([ZeroDivisionError]), and the buffer of a file without frames
    ([ValueError] from [np.max]). *)
Lemma mean_amplitude_missing :
  (snd (load_wav (env_frames params_rate_0 raw_silence_2) (fresh "a.wav")) = Ok tt
   /\ signal (self (fst (load_wav (env_frames params_rate_0 raw_silence_2)
                           (fresh "a.wav")))) = Some (Np.Arr1 [0; 0])
   /\ analyze (self (fst (load_wav (env_frames params_rate_0 raw_silence_2)
                           (fresh "a.wav")))) = Raise ZeroDivisionError)
  /\ (snd (load_wav (env_frames params_mono_0 []) (fresh "a.wav")) = Ok tt
      /\ signal (self (fst (load_wav (env_frames params_mono_0 [])
                              (fresh "a.wav")))) = Some (Np.Arr1 [])
      /\ analyze (self (fst (load_wav (env_frames params_mono_0 [])
                              (fresh "a.wav")))) = Raise ValueError).
Proof. repeat split. Qed.

(** ** Loading: what is refused and what is not *)

(** C2 (amended). [load_wav] has no check of the declared sample width;
    a width other than 2 is refused by the size check of
    [struct.unpack], so only when the container holds at least one sample.
    When the reader delivers parameters [p] and the complete frame data
    ([nframes * nchannels * sampwidth] bytes): if [sampwidth] is not 2 and
    there is at least one sample, the call raises [struct.error] and no
    buffer is stored; if [sampwidth] is 2 the call returns.  When the
    reader refuses the file (unreadable, invalid or empty container), the
    call raises the reader's exception and the session is unchanged. *)
Theorem load_wav_sample_width :
  forall (env : Env) (st : St),
    transcode_ok env (self st) = true ->
    (forall p raw,
        wave_file env (source_path env (self st)) = Frames p raw ->
        N.of_nat (List.length raw) = (nframes p * nchannels p * sampwidth p)%N ->
        (sampwidth p <> 2%N -> (0 < nframes p * nchannels p)%N ->
         snd (load_wav env st) = Raise StructError
         /\ signal (self (fst (load_wav env st))) = signal (self st))
        /\ (sampwidth p = 2%N -> snd (load_wav env st) = Ok tt))
    /\ (forall e,
        wave_file env (source_path env (self st)) = OpenRaises e ->
        snd (load_wav env st) = Raise e
        /\ self (fst (load_wav env st)) = self st).
Proof.
  intros env st Ht. split.
  - intros p raw Hw Hlen.
    pose proof (load_wav_frames env st p raw Ht Hw) as H.
    destruct (N.eqb_spec (N.of_nat (List.length raw))
                (2 * (nframes p * nchannels p))) as [He|He];
      injection H as H1 H2.
    + split; [|intros _; exact H1]. intros Hsw Hpos. exfalso. nia.
    + split.
      * intros _ _. split; [exact H1|]. rewrite H2. reflexivity.
      * intros Hsw. exfalso. apply He. rewrite Hlen, Hsw. lia.
  - intros e Hw. apply load_wav_open_raises; assumption.
Qed.

Lemma load_wav_sample_width_8bit :
  transcode_ok (env_frames params_8bit_2 [x80; x80]) (self (fresh "a.wav")) = true
  /\ snd (load_wav (env_frames params_8bit_2 [x80; x80]) (fresh "a.wav"))
     = Raise StructError
  /\ snd (load_wav env_unreadable (fresh "a.wav")) = Raise WaveError.
Proof.
  split; [reflexivity|]. split.
  - apply (proj1 (load_wav_sample_width (env_frames params_8bit_2 [x80; x80])
                    (fresh "a.wav") eq_refl) params_8bit_2 [x80; x80]
                 eq_refl eq_refl);
      vm_compute; [discriminate|reflexivity].
  - apply (proj2 (load_wav_sample_width env_unreadable (fresh "a.wav") eq_refl)
                 WaveError eq_refl).
Defined.

(** C2, as stated, fails: an 8-bit container without frames declares a
    sample width of 1 and loads, as an empty buffer. *)
Lemma load_wav_accepts_8bit_empty :
  sampwidth params_8bit_0 <> 2%N
  /\ wave_file (env_frames params_8bit_0 []) "a.wav" = Frames params_8bit_0 []
  /\ snd (load_wav (env_frames params_8bit_0 []) (fresh "a.wav")) = Ok tt
  /\ signal (self (fst (load_wav (env_frames params_8bit_0 []) (fresh "a.wav"))))
     = Some (Np.Arr1 []).
Proof. repeat split. discriminate. Qed.

(** C3 (amended). The frame bytes must be exactly [2 * nframes *
    nchannels] long, 2 being the width [struct.unpack] is asked for
    whatever the container declares.  Bytes whose number is not that, and
    so any whose number is not a multiple of [2 * nchannels], make the call
    raise [struct.error] and leave the stored buffer as it was; when the
    call returns, the buffer holds one sample for each pair of bytes read,
    [nframes * nchannels] of them: nothing is cut off. *)
Theorem load_wav_frame_alignment :
  forall (env : Env) (st : St) (p : wave_params) (raw : list byte),
    transcode_ok env (self st) = true ->
    wave_file env (source_path env (self st)) = Frames p raw ->
    (~ N.divide (2 * nchannels p) (N.of_nat (List.length raw)) ->
     snd (load_wav env st) = Raise StructError
     /\ signal (self (fst (load_wav env st))) = signal (self st))
    /\ (N.of_nat (List.length raw) <> (2 * (nframes p * nchannels p))%N ->
        snd (load_wav env st) = Raise StructError
        /\ signal (self (fst (load_wav env st))) = signal (self st))
    /\ (snd (load_wav env st) = Ok tt ->
        exists sig,
          signal (self (fst (load_wav env st))) = Some sig
          /\ Np.flat sig = le_pairs raw
          /\ N.of_nat (List.length (Np.flat sig)) = (nframes p * nchannels p)%N
          /\ (2 * List.length (Np.flat sig) = List.length raw)%nat).
Proof.
  intros env st p raw Ht Hw.
  pose proof (load_wav_frames env st p raw Ht Hw) as H.
  assert (Hbad : N.of_nat (List.length raw) <> (2 * (nframes p * nchannels p))%N ->
            snd (load_wav env st) = Raise StructError
            /\ signal (self (fst (load_wav env st))) = signal (self st)).
  { intros Hne. apply N.eqb_neq in Hne. rewrite Hne in H.
    injection H as H1 H2. split; [exact H1|]. rewrite H2. reflexivity. }
  split; [|split].
  - intros Hnd. apply Hbad. intros Heq. apply Hnd.
    exists (nframes p). rewrite Heq. lia.
  - exact Hbad.
  - intros Hok.
    destruct (N.eqb_spec (N.of_nat (List.length raw))
                (2 * (nframes p * nchannels p))) as [He|He];
      injection H as H1 H2; [|congruence].
    exists (shaped p (le_pairs raw)). rewrite H2. cbn [signal].
    pose proof (le_pairs_length_exact _ _ He) as Hl.
    rewrite flat_shaped by exact Hl.
    repeat split; lia.
Qed.

Lemma load_wav_frame_alignment_odd :
  transcode_ok (env_frames params_stereo_2 [x01; x00; x02; x00; x03; x00])
    (self (fresh "a.wav")) = true
  /\ snd (load_wav (env_frames params_stereo_2 [x01; x00; x02; x00; x03; x00])
            (fresh "a.wav")) = Raise StructError.
Proof.
  split; [reflexivity|].
  apply (proj1 (load_wav_frame_alignment
                  (env_frames params_stereo_2 [x01; x00; x02; x00; x03; x00])
                  (fresh "a.wav") params_stereo_2
                  [x01; x00; x02; x00; x03; x00] eq_refl eq_refl)).
  intros [k Hk]. cbn [List.length nchannels sampwidth params_stereo_2
    params_32bit_1 raw_min] in Hk. lia.
Defined.

(** C3, as stated, fails: a mono container that declares 4-byte samples
    and one frame, cut after two bytes, has a length that is not a
    multiple of [sampwidth * nchannels]; it loads, as the one sample
    those two bytes spell. *)
Lemma load_wav_accepts_cut_32bit :
  ~ N.divide (sampwidth params_32bit_1 * nchannels params_32bit_1)
      (N.of_nat (List.length raw_min))
  /\ wave_file (env_frames params_32bit_1 raw_min) "a.wav"
     = Frames params_32bit_1 raw_min
  /\ snd (load_wav (env_frames params_32bit_1 raw_min) (fresh "a.wav")) = Ok tt
  /\ signal (self (fst (load_wav (env_frames params_32bit_1 raw_min)
                          (fresh "a.wav")))) = Some (Np.Arr1 [-32768]).
Proof.
  split; [|repeat split].
  intros [k Hk]. cbn [List.length nchannels sampwidth params_stereo_2
    params_32bit_1 raw_min] in Hk. lia.
Qed.

(** ** Byte order and channel order *)

Lemma land_low_high (a b : Z) :
  0 <= a < 256 -> Z.land a (Z.shiftl b 8) = 0.
Proof.
  intros Ha. apply Z.bits_inj'. intros n Hn.
  rewrite Z.land_spec, Z.bits_0.
  destruct (Z_lt_le_dec n 8) as [Hlt|Hge].
  - rewrite (Z.shiftl_spec_low b 8 n Hlt). apply andb_false_r.
  - destruct (Z.eq_dec a 0) as [->|Hnz]; [now rewrite Z.bits_0|].
    rewrite (Z.bits_above_log2 a n); [reflexivity|lia|].
    assert (Z.log2 a < 8); [|lia].
    apply Z.log2_lt_pow2; [lia|]. change (2 ^ 8) with 256. lia.
Qed.

(** The two bytes of an item are the low and the high byte of a 16-bit
    two's-complement number. *)
Lemma s16le_arith (b0 b1 : byte) :
  s16le b0 b1 =
  let u := byte_val b0 + 256 * byte_val b1 in
  if u <? 32768 then u else u - 65536.
Proof.
  pose proof (s16le_range b0 b1) as Hr. pose proof (u16_range b0 b1) as Hu.
  revert Hr Hu. unfold s16le. cbv zeta.
  assert (Hsum : Z.lor (byte_val b0) (Z.shiftl (byte_val b1) 8)
                 = byte_val b0 + 256 * byte_val b1).
  { pose proof (byte_val_range b0) as H0.
    rewrite <- Z.lxor_lor by (apply land_low_high; lia).
    rewrite <- Z.add_nocarry_lxor by (apply land_low_high; lia).
    rewrite Z.shiftl_mul_pow2 by lia. change (2 ^ 8) with 256. lia. }
  rewrite Hsum. set (u := byte_val b0 + 256 * byte_val b1).
  intros Hr Hu. destruct (Z.testbit u 15); destruct (Z.ltb_spec u 32768); lia.
Qed.

(** C6. When a container with more than one channel has been decoded,
    the stored array has one row per frame and one column per channel,
    and the sample at flat index [i] of the byte stream sits in row
    [i / nchannels], column [i mod nchannels].  That sample is the
    little-endian signed 16-bit number made of bytes [2i] and [2i+1]:
    with [u] the low byte plus 256 times the high byte, it is [u] when
    [u < 32768] and [u - 65536] otherwise.  In particular the eight bytes
    of two stereo frames decode to the rows (L0, R0) and (L1, R1). *)
Theorem load_wav_deinterleaves :
  forall (env : Env) (st : St),
    transcode_ok env (self st) = true ->
    let sample := fun (lo hi : byte) =>
      let u := Z.of_N (Byte.to_N lo) + 256 * Z.of_N (Byte.to_N hi) in
      if u <? 32768 then u else u - 65536 in
    (forall p raw,
        wave_file env (source_path env (self st)) = Frames p raw ->
        snd (load_wav env st) = Ok tt ->
        (1 < nchannels p)%N ->
        exists rows,
          signal (self (fst (load_wav env st)))
          = Some (Np.Arr2 (N.to_nat (nchannels p)) rows)
          /\ List.length rows = N.to_nat (nframes p)
          /\ forall (i : nat) (d : byte),
               (i < N.to_nat (nframes p * nchannels p))%nat ->
               nth (i mod N.to_nat (nchannels p))
                   (nth (i / N.to_nat (nchannels p)) rows []) 0
               = sample (nth (2 * i) raw d) (nth (2 * i + 1) raw d))
    /\ (forall sw fr l0a l0b r0a r0b l1a l1b r1a r1b,
        wave_file env (source_path env (self st))
        = Frames (mk_params 2 sw fr 2) [l0a; l0b; r0a; r0b; l1a; l1b; r1a; r1b] ->
        snd (load_wav env st) = Ok tt
        /\ signal (self (fst (load_wav env st)))
           = Some (Np.Arr2 2 [[sample l0a l0b; sample r0a r0b];
                              [sample l1a l1b; sample r1a r1b]])).
Proof.
  intros env st Ht sample.
  assert (Hsample : forall lo hi, s16le lo hi = sample lo hi).
  { intros lo hi. rewrite s16le_arith. reflexivity. }
  split.
  - intros p raw Hw Hok Hc.
    pose proof (load_wav_frames env st p raw Ht Hw) as H.
    destruct (N.eqb_spec (N.of_nat (List.length raw))
                (2 * (nframes p * nchannels p))) as [He|He];
      injection H as H1 H2; [|congruence].
    pose proof (le_pairs_length_exact _ _ He) as Hl.
    pose proof (sample_at_shaped p (le_pairs raw)) as Hat.
    rewrite H2. cbn [signal]. unfold shaped in *.
    destruct (N.ltb_spec 1 (nchannels p)) as [_|]; [|lia].
    eexists. split; [reflexivity|]. split.
    + rewrite List.length_map, List.length_seq, Hl.
      replace (N.to_nat (nframes p * nchannels p))
        with (N.to_nat (nframes p) * N.to_nat (nchannels p))%nat by lia.
      apply Nat.div_mul. lia.
    + intros i d Hi. cbn [sample_at] in Hat.
      rewrite (Hat i Hc Hl) by (rewrite Hl; exact Hi).
      rewrite <- Hsample. apply le_pairs_nth. lia.
  - intros sw fr l0a l0b r0a r0b l1a l1b r1a r1b Hw.
    pose proof (load_wav_frames env st _ _ Ht Hw) as H.
    cbn in H. injection H as H1 H2. split; [exact H1|].
    rewrite H2, <- !Hsample. reflexivity.
Qed.

Lemma load_wav_deinterleaves_stereo :
  transcode_ok (env_frames params_stereo_2 raw_stereo_edges)
    (self (fresh "a.wav")) = true
  /\ snd (load_wav (env_frames params_stereo_2 raw_stereo_edges)
            (fresh "a.wav")) = Ok tt
  /\ signal (self (fst (load_wav (env_frames params_stereo_2 raw_stereo_edges)
                          (fresh "a.wav"))))
     = Some (Np.Arr2 2 [[4660; -32768]; [32767; -1]]).
Proof.
  split; [reflexivity|].
  apply (proj2 (load_wav_deinterleaves
                  (env_frames params_stereo_2 raw_stereo_edges)
                  (fresh "a.wav") eq_refl)
               2%N 44100%N x34 x12 x00 x80 xff x7f xff xff).
  reflexivity.
Defined.

(** ** Load before use *)

Lemma analyze_not_loaded (s : AudioChecker) :
  analyze s = Raise RuntimeError <-> signal s = None.
Proof.
  unfold analyze, true_div. destruct (signal s) as [sig|]; [|tauto].
  split; [|discriminate]. intros H. exfalso. revert H.
  destruct (params s) as [p|]; [|discriminate].
  destruct (frames s) as [n|]; [|discriminate].
  destruct (framerate p =? 0)%N; [discriminate|].
  unfold Np.max. destruct (Np.flat (Np.abs sig)); discriminate.
Qed.

Lemma plot_waveform_not_loaded (s : AudioChecker) :
  plot_waveform s = Raise RuntimeError <-> signal s = None.
Proof.
  unfold plot_waveform. destruct (signal s) as [sig|]; [|tauto].
  split; [|discriminate]. intros H. exfalso. revert H.
  destruct (params s) as [p|]; [|discriminate].
  destruct (1 <? nchannels p)%N; [|discriminate].
  unfold Np.column. destruct sig as [d|n rows]; [discriminate|].
  destruct (0 <? n)%nat; [|discriminate].
  destruct (1 <? n)%nat; discriminate.
Qed.

Lemma load_wav_ok_signal (env : Env) (st : St) :
  is_ok (snd (load_wav env st)) = true ->
  signal (self (fst (load_wav env st))) <> None.
Proof.
  destruct (snd (load_wav env st)) as [[]|e] eqn:Hr; [|discriminate].
  intros _. destruct (load_wav_ok_inv env st Hr) as (_ & p & raw & _ & _ & Hs).
  rewrite Hs. discriminate.
Qed.

(** The buffer is absent after a sequence of calls exactly when it was
    absent before and none of the calls returned. *)
Lemma run_loads_signal (envs : list Env) (st : St) :
  signal (self (run_loads envs st)) = None
  <-> (signal (self st) = None /\ decoded envs st = false).
Proof.
  revert st. induction envs as [|env envs IH]; intros st; cbn [run_loads decoded].
  - tauto.
  - rewrite IH.
    destruct (snd (load_wav env st)) as [[]|e] eqn:Hr; cbn [is_ok orb].
    + assert (Hs : signal (self (fst (load_wav env st))) <> None)
        by (apply load_wav_ok_signal; now rewrite Hr).
      split; [tauto|]. intros [_ H]. discriminate.
    + rewrite (load_wav_raise_signal env st e Hr). tauto.
Qed.

(** C9. Take a session made by the constructor and any sequence of calls
    of [load_wav] on it.  If none of the calls has returned, [analyze] and
    [plot_waveform] raise [RuntimeError]; once one of them has returned,
    neither [analyze] nor [plot_waveform] raises [RuntimeError]. *)
Theorem not_loaded_error :
  forall (path : string) (w : World) (s : AudioChecker) (envs : list Env),
    snd (init path w) = Ok s ->
    (decoded envs (mk_st s w) = false ->
     analyze (self (run_loads envs (mk_st s w))) = Raise RuntimeError
     /\ plot_waveform (self (run_loads envs (mk_st s w))) = Raise RuntimeError)
    /\ (decoded envs (mk_st s w) = true ->
        analyze (self (run_loads envs (mk_st s w))) <> Raise RuntimeError
        /\ plot_waveform (self (run_loads envs (mk_st s w))) <> Raise RuntimeError).
Proof.
  intros path w s envs Hinit.
  assert (Hs : signal s = None).
  { rewrite init_result in Hinit. cbv zeta in Hinit. cbn [snd] in Hinit.
    destruct (_ || _)%bool in Hinit; [|discriminate].
    injection Hinit as <-. reflexivity. }
  pose proof (run_loads_signal envs (mk_st s w)) as H. cbn [self] in H.
  rewrite analyze_not_loaded, plot_waveform_not_loaded. split.
  - intros Hd. split; apply H; auto.
  - intros Hd. assert (signal (self (run_loads envs (mk_st s w))) <> None).
    { intros Hn. apply H in Hn. destruct Hn as [_ Hn]. congruence. }
    auto.
Qed.

Lemma not_loaded_error_session :
  snd (init "a.wav" world0) = Ok (self (fresh "a.wav"))
  /\ decoded [env_unreadable] (fresh "a.wav") = false
  /\ analyze (self (run_loads [env_unreadable] (fresh "a.wav")))
     = Raise RuntimeError
  /\ plot_waveform (self (run_loads [env_unreadable] (fresh "a.wav")))
     = Raise RuntimeError
  /\ decoded [env_unreadable; env_frames params_stereo_2 raw_stereo_2]
       (fresh "a.wav") = true
  /\ analyze (self (run_loads
                [env_unreadable; env_frames params_stereo_2 raw_stereo_2]
                (fresh "a.wav"))) <> Raise RuntimeError
  /\ plot_waveform (self (run_loads
                [env_unreadable; env_frames params_stereo_2 raw_stereo_2]
                (fresh "a.wav"))) <> Raise RuntimeError.
Proof.
  split; [reflexivity|]. split; [reflexivity|].
  pose proof (proj1 (not_loaded_error "a.wav" world0 (self (fresh "a.wav"))
                       [env_unreadable] eq_refl) eq_refl) as [Ha Hp].
  pose proof (proj2 (not_loaded_error "a.wav" world0 (self (fresh "a.wav"))
                       [env_unreadable;
                        env_frames params_stereo_2 raw_stereo_2] eq_refl)
                    eq_refl) as [Ha' Hp'].
  repeat split; assumption.
Defined.

(** ** The temporary file *)

(** The temporary files left behind by a call on an [.mp3] input:
    [os.remove] is reached only when ffmpeg has succeeded and the [wave]
    block has been left normally. *)
Lemma load_wav_mp3_temp_files (env : Env) (st : St) :
  Str.endswith (Str.lower (filepath (self st))) ".mp3" = true ->
  Str.truthy (tmp_name env) = true ->
  temp_files (world (fst (load_wav env st))) =
  match ffmpeg env (filepath (self st)) (tmp_name env) with
  | Some _ => tmp_name env :: temp_files (world st)
  | None =>
      match wave_file env (tmp_name env) with
      | Frames _ _ =>
          if remove_fails env then tmp_name env :: temp_files (world st)
          else remove_string (tmp_name env)
                 (tmp_name env :: temp_files (world st))
      | _ => tmp_name env :: temp_files (world st)
      end
  end.
Proof.
  intros Hmp3 Htmp. unfold load_wav, bind. rewrite transcode_eq, Hmp3.
  destruct (ffmpeg env _ _) as [e|]; [reflexivity|].
  unfold wave_block. unfold_py. cbn [fst snd self world].
  destruct (wave_file env (tmp_name env)) as [e|p e|p raw];
    [reflexivity|reflexivity|].
  unfold cleanup. rewrite Htmp. unfold_py.
  match goal with |- context [unpack_signal raw ?s] =>
    rewrite (unpack_signal_eq raw s p) by reflexivity end.
  destruct (N.eqb _ _); destruct (remove_fails env); reflexivity.
Qed.

(** C4. The claim fails on the code.  For the input [song.mp3], when
    ffmpeg has written the temporary file and [wave.open] refuses it,
    [load_wav] raises the reader's exception, [os.remove] has not been
    called, and the temporary file is still there; the same holds when
    ffmpeg exits with a non-zero status.  On the path where the frames are
    read the file is removed. *)
Theorem temp_wav_left_behind :
  (snd (load_wav env_unreadable (fresh "song.mp3")) = Raise WaveError
   /\ temp_files (world (fst (load_wav env_unreadable (fresh "song.mp3"))))
      = [tmp_name env_unreadable]
   /\ calls (world (fst (load_wav env_unreadable (fresh "song.mp3"))))
      = [CallWaveOpen (tmp_name env_unreadable);
         CallFfmpeg "song.mp3" (tmp_name env_unreadable);
         CallMkTemp (tmp_name env_unreadable)])
  /\ (snd (load_wav env_ffmpeg_fails (fresh "song.mp3")) = Raise CalledProcessError
      /\ temp_files (world (fst (load_wav env_ffmpeg_fails (fresh "song.mp3"))))
         = [tmp_name env_ffmpeg_fails]
      /\ calls (world (fst (load_wav env_ffmpeg_fails (fresh "song.mp3"))))
         = [CallFfmpeg "song.mp3" (tmp_name env_ffmpeg_fails);
            CallMkTemp (tmp_name env_ffmpeg_fails)])
  /\ (snd (load_wav (env_frames params_stereo_2 raw_stereo_2) (fresh "song.mp3"))
      = Ok tt
      /\ temp_files (world (fst (load_wav (env_frames params_stereo_2 raw_stereo_2)
                                   (fresh "song.mp3")))) = []).
Proof. repeat split. Qed.

(** * Further properties *)

(** ** [os.path.splitext] and the two extension tests *)

Section Extensions.

Lemma take_drop (n : nat) (s : string) :
  String.append (Str.take n s) (Str.drop n s) = s.
Proof.
  revert s. induction n as [|n IH]; intros [|a s]; cbn; try reflexivity.
  now rewrite IH.
Qed.

Lemma length_drop (n : nat) (s : string) :
  String.length (Str.drop n s) = (String.length s - n)%nat.
Proof.
  revert s. induction n as [|n IH]; intros [|a s]; cbn; auto.
Qed.

Lemma rfind_range (c : ascii) (s : string) :
  -1 <= Str.rfind c s < Z.of_nat (String.length s).
Proof.
  induction s as [|a s IH]; cbn [Str.rfind String.length]; [lia|].
  destruct (Z.leb_spec 0 (Str.rfind c s)); [lia|].
  destruct (Ascii.eqb a c); lia.
Qed.

(** [rfind] answers a position that holds the character, and nothing
    after that position does. *)
Lemma rfind_get (c : ascii) (s : string) :
  0 <= Str.rfind c s ->
  String.get (Z.to_nat (Str.rfind c s)) s = Some c.
Proof.
  induction s as [|a s IH]; cbn [Str.rfind]; [lia|].
  destruct (Z.leb_spec 0 (Str.rfind c s)) as [Hr|Hr].
  - intros _. replace (Z.to_nat (Str.rfind c s + 1))
      with (S (Z.to_nat (Str.rfind c s))) by lia.
    cbn. apply IH. exact Hr.
  - destruct (Ascii.eqb_spec a c) as [->|]; [|lia]. reflexivity.
Qed.

Lemma rfind_last (c : ascii) (s : string) (i : nat) :
  Str.rfind c s < Z.of_nat i -> String.get i s <> Some c.
Proof.
  revert i. induction s as [|a s IH]; intros i; cbn [Str.rfind].
  - intros _. destruct i; discriminate.
  - destruct (Z.leb_spec 0 (Str.rfind c s)) as [Hr|Hr].
    + intros Hi. destruct i as [|i]; [lia|]. cbn. apply IH. lia.
    + destruct (Ascii.eqb_spec a c) as [->|Hne].
      * intros Hi. destruct i as [|i]; [lia|]. cbn. apply IH. lia.
      * intros _. destruct i as [|i]; cbn; [congruence|]. apply IH. lia.
Qed.

Lemma drop_get (n : nat) (s : string) (c : ascii) :
  String.get n s = Some c -> Str.drop n s = String c (Str.drop (S n) s).
Proof.
  revert s. induction n as [|n IH]; intros [|a s]; cbn; try discriminate.
  - intros H. injection H as ->. now destruct s.
  - intros H. rewrite (IH s H). reflexivity.
Qed.

Lemma get_drop (n i : nat) (s : string) :
  String.get i (Str.drop n s) = String.get (n + i) s.
Proof.
  revert s. induction n as [|n IH]; intros [|a s]; cbn; auto.
Qed.

(** The extension is empty or is the part of the path from its last
    dot on; that dot comes after the last slash. *)
Lemma splitext_ext (p : string) :
  snd (OsPath.splitext p) = EmptyString
  \/ (Str.rfind "/" p < Str.rfind "." p
      /\ snd (OsPath.splitext p) = Str.drop (Z.to_nat (Str.rfind "." p)) p).
Proof.
  unfold OsPath.splitext.
  destruct (Z.ltb_spec (Str.rfind "/" p) (Str.rfind "." p)); [|now left].
  destruct (OsPath.has_non_dot _ _ p); [right|left]; auto.
Qed.

(** X1. [os.path.splitext] cuts the path in two without losing
    anything: root and extension concatenate to the path; and the
    extension is either empty or begins with a dot and holds no other dot
    and no slash. *)
Theorem splitext_round_trip :
  forall p : string,
    String.append (fst (OsPath.splitext p)) (snd (OsPath.splitext p)) = p
    /\ (snd (OsPath.splitext p) = EmptyString
        \/ exists rest,
             snd (OsPath.splitext p) = String "." rest
             /\ forall i, String.get i rest <> Some "."%char
                          /\ String.get i rest <> Some "/"%char).
Proof.
  intros p. split.
  - assert (Hnil : forall s, String.append s EmptyString = s)
      by (induction s as [|a s IH]; cbn; [reflexivity|now rewrite IH]).
    unfold OsPath.splitext.
    destruct (Str.rfind "/" p <? Str.rfind "." p); cbn [fst snd];
      [|apply Hnil].
    destruct (OsPath.has_non_dot _ _ p); cbn [fst snd];
      [apply take_drop|apply Hnil].
  - destruct (splitext_ext p) as [He|[Hlt He]]; [now left|right].
    pose proof (rfind_range "/" p) as Hs.
    assert (Hd : 0 <= Str.rfind "." p) by lia.
    set (k := Z.to_nat (Str.rfind "." p)) in *.
    exists (Str.drop (S k) p). split.
    + rewrite He. apply drop_get. apply rfind_get. exact Hd.
    + intros i. rewrite get_drop. split; apply rfind_last; lia.
Qed.

(** A string that is its own tail from position [k] on ends with that
    tail. *)
Lemma endswith_drop (k : nat) (s : string) :
  (k <= String.length s)%nat -> Str.endswith s (Str.drop k s) = true.
Proof.
  intros Hk. unfold Str.endswith. rewrite length_drop.
  apply andb_true_intro. split; [apply Nat.leb_le; lia|].
  replace (String.length s - (String.length s - k))%nat with k by lia.
  apply String.eqb_refl.
Qed.

Lemma endswith_inv (s t : string) :
  Str.endswith s t = true ->
  Str.drop (String.length s - String.length t) s = t
  /\ (String.length t <= String.length s)%nat.
Proof.
  unfold Str.endswith. intros H. apply andb_prop in H. destruct H as [Hl He].
  apply Nat.leb_le in Hl. apply String.eqb_eq in He. auto.
Qed.

(** The lowered extension is a tail of the lowered path. *)
Lemma lower_ext_endswith (p : string) :
  Str.endswith (Str.lower p) (Str.lower (snd (OsPath.splitext p))) = true.
Proof.
  destruct (splitext_ext p) as [->|[Hlt ->]].
  - cbn [Str.lower]. unfold Str.endswith. cbn [String.length].
    rewrite Nat.sub_0_r.
    assert (H : forall s, Str.drop (String.length s) s = EmptyString)
      by (induction s; cbn; auto).
    rewrite H. reflexivity.
  - rewrite <- drop_lower. apply endswith_drop.
    pose proof (rfind_range "." p) as Hr.
    assert (String.length (Str.lower p) = String.length p) as ->
      by (clear; induction p; cbn; auto).
    lia.
Qed.

(** On a path the constructor accepts, the test of [load_wav]
    ([str.endswith]) and the test of the constructor
    ([os.path.splitext]) agree. *)
Lemma ext_tests_agree :
  forall (path : string) (w : World) (s : AudioChecker),
    snd (init path w) = Ok s ->
    filepath s = path
    /\ (Str.endswith (Str.lower (filepath s)) ".mp3" = true
        <-> Str.lower (snd (OsPath.splitext path)) = ".mp3")
    /\ (Str.endswith (Str.lower (filepath s)) ".mp3" = false
        <-> Str.lower (snd (OsPath.splitext path)) = ".wav").
Proof.
  intros path w s Hinit. rewrite init_result in Hinit.
  cbv zeta in Hinit. cbn [snd] in Hinit.
  pose proof (lower_ext_endswith path) as Hend.
  set (ext := Str.lower (snd (OsPath.splitext path))) in *.
  destruct (String.eqb_spec ext ".wav") as [Hw|Hw];
    destruct (String.eqb_spec ext ".mp3") as [Hm|Hm];
    cbn [orb] in Hinit; try discriminate;
    injection Hinit as <-; cbn [filepath].
  - congruence.
  - rewrite Hw in Hend. apply endswith_inv in Hend. destruct Hend as [Hd Hl].
    assert (Hno : Str.endswith (Str.lower path) ".mp3" = false).
    { unfold Str.endswith. cbn [String.length] in *. rewrite Hd.
      apply andb_false_r. }
    rewrite Hno, Hw. repeat split; auto; discriminate.
  - rewrite Hm in Hend. rewrite Hend, Hm.
    repeat split; auto; discriminate.
Qed.

End Extensions.

(** ** [load_wav]: the session it leaves *)

Lemma load_wav_outcome (env : Env) (st : St) :
  (snd (load_wav env st), self (fst (load_wav env st)))
  = load_outcome env (self st).
Proof.
  unfold load_outcome.
  destruct (transcode_ok env (self st)) eqn:Ht.
  - pose proof (load_wav_open_raises env st) as Ho.
    pose proof (load_wav_read_raises env st) as Hr.
    pose proof (load_wav_frames env st) as Hf.
    specialize (fun e => Ho e Ht). specialize (fun p e => Hr p e Ht).
    specialize (fun p raw => Hf p raw Ht).
    unfold transcode_ok, source_path in *.
    destruct (Str.endswith (Str.lower (filepath (self st))) ".mp3").
    + destruct (ffmpeg env _ _); [discriminate|].
      destruct (wave_file env (tmp_name env)) as [e|p e|p raw].
      * destruct (Ho e eq_refl) as [-> ->]. reflexivity.
      * destruct (Hr p e eq_refl) as [-> ->]. reflexivity.
      * exact (Hf p raw eq_refl).
    + destruct (wave_file env (filepath (self st))) as [e|p e|p raw].
      * destruct (Ho e eq_refl) as [-> ->]. reflexivity.
      * destruct (Hr p e eq_refl) as [-> ->]. reflexivity.
      * exact (Hf p raw eq_refl).
  - unfold load_wav, bind. rewrite transcode_eq.
    unfold transcode_ok in Ht.
    destruct (Str.endswith (Str.lower (filepath (self st))) ".mp3");
      [|discriminate].
    destruct (ffmpeg env _ _); [reflexivity|discriminate].
Qed.

Lemma load_outcome_filepath (env : Env) (s : AudioChecker) :
  filepath (snd (load_outcome env s)) = filepath s.
Proof.
  unfold load_outcome.
  destruct (Str.endswith _ _); [destruct (ffmpeg env _ _); [reflexivity|]|];
    destruct (wave_file env _) as [e|p e|p raw]; try reflexivity;
    destruct (N.eqb _ _); reflexivity.
Qed.

(** X3. Whether [os.remove] succeeds or fails with [OSError] makes no
    difference to what [load_wav] answers nor to the session it leaves:
    the clean-up is best effort. *)
Theorem load_wav_remove_failure_ignored :
  forall (env : Env) (st : St) (b : bool),
    snd (load_wav (with_remove_fails b env) st) = snd (load_wav env st)
    /\ self (fst (load_wav (with_remove_fails b env) st))
       = self (fst (load_wav env st)).
Proof.
  intros env st b.
  pose proof (load_wav_outcome env st) as H1.
  pose proof (load_wav_outcome (with_remove_fails b env) st) as H2.
  assert (He : load_outcome (with_remove_fails b env) (self st)
               = load_outcome env (self st)) by reflexivity.
  rewrite He, <- H1 in H2. injection H2 as Ha Hb. auto.
Qed.


(** ** [load_wav]: what it does to the world *)

Lemma load_wav_world (env : Env) (st : St) :
  world (fst (load_wav env st)) =
  if Str.endswith (Str.lower (filepath (self st))) ".mp3" then
    let w1 := log (CallFfmpeg (filepath (self st)) (tmp_name env))
                (log (CallMkTemp (tmp_name env))
                   (mk_world (tmp_name env :: temp_files (world st))
                      (calls (world st)))) in
    match ffmpeg env (filepath (self st)) (tmp_name env) with
    | Some _ => w1
    | None =>
        let w2 := log (CallWaveOpen (tmp_name env)) w1 in
        match wave_file env (tmp_name env) with
        | Frames _ _ =>
            if Str.truthy (tmp_name env) then
              log (CallRemove (tmp_name env))
                (if remove_fails env then w2
                 else mk_world (remove_string (tmp_name env) (temp_files w2))
                        (calls w2))
            else w2
        | _ => w2
        end
    end
  else log (CallWaveOpen (filepath (self st))) (world st).
Proof.
  unfold load_wav, bind. rewrite transcode_eq.
  destruct (Str.endswith _ _).
  - destruct (ffmpeg env _ _) as [e|]; [reflexivity|].
    unfold wave_block. unfold_py. cbn [fst snd self world].
    destruct (wave_file env (tmp_name env)) as [e|p e|p raw];
      [reflexivity|reflexivity|].
    unfold cleanup. destruct (Str.truthy (tmp_name env)); unfold_py;
      match goal with |- context [unpack_signal raw ?s] =>
        rewrite (unpack_signal_eq raw s p) by reflexivity end;
      destruct (N.eqb _ _); reflexivity.
  - unfold wave_block. unfold_py. cbn [fst snd self world].
    destruct (wave_file env (filepath (self st))) as [e|p e|p raw];
      [reflexivity|reflexivity|].
    unfold cleanup. unfold_py.
    match goal with |- context [unpack_signal raw ?s] =>
      rewrite (unpack_signal_eq raw s p) by reflexivity end.
    destruct (N.eqb _ _); reflexivity.
Qed.

Lemma remove_string_fresh (x : string) (l : list string) :
  ~ In x l -> remove_string x (x :: l) = l.
Proof.
  intros Hx. unfold remove_string. cbn [List.filter].
  rewrite String.eqb_refl. cbn [negb].
  induction l as [|y l IH]; [reflexivity|]. cbn [List.filter].
  destruct (String.eqb_spec x y) as [->|Hne].
  - exfalso. apply Hx. now left.
  - cbn [negb]. rewrite IH; [reflexivity|]. intros H. apply Hx. now right.
Qed.

(** X5. On a path that does not end in [.mp3] (whatever the case of the
    letters), [load_wav] only opens that path with the [wave] reader: it
    creates no temporary file, runs no ffmpeg and removes nothing,
    whatever the outcome of the call. *)
Theorem load_wav_direct_read_only :
  forall (env : Env) (st : St),
    Str.endswith (Str.lower (filepath (self st))) ".mp3" = false ->
    temp_files (world (fst (load_wav env st))) = temp_files (world st)
    /\ calls (world (fst (load_wav env st)))
       = CallWaveOpen (filepath (self st)) :: calls (world st).
Proof.
  intros env st Hm. rewrite load_wav_world, Hm. split; reflexivity.
Qed.

Lemma load_wav_direct_read_only_wav :
  Str.endswith (Str.lower (filepath (self (fresh "a.wav")))) ".mp3" = false
  /\ temp_files (world (fst (load_wav env_unreadable (fresh "a.wav"))))
     = temp_files (world (fresh "a.wav"))
  /\ calls (world (fst (load_wav env_unreadable (fresh "a.wav"))))
     = CallWaveOpen (filepath (self (fresh "a.wav")))
       :: calls (world (fresh "a.wav")).
Proof.
  split; [reflexivity|].
  apply (load_wav_direct_read_only env_unreadable (fresh "a.wav")).
  reflexivity.
Defined.

(** X6. On an [.mp3] path, when ffmpeg succeeds, the frames of the
    temporary file are read and [os.remove] succeeds, the temporary file
    is gone after the call, also when the unpacking then raises: the set
    of temporary files is what it was before, and the calls made are, in
    order, the creation of the temporary file, ffmpeg from the input to
    it, the [wave] reader on it, and its removal. *)
Theorem load_wav_mp3_cleans_up :
  forall (env : Env) (st : St) (p : wave_params) (raw : list byte),
    Str.endswith (Str.lower (filepath (self st))) ".mp3" = true ->
    Str.truthy (tmp_name env) = true ->
    ~ In (tmp_name env) (temp_files (world st)) ->
    ffmpeg env (filepath (self st)) (tmp_name env) = None ->
    wave_file env (tmp_name env) = Frames p raw ->
    remove_fails env = false ->
    temp_files (world (fst (load_wav env st))) = temp_files (world st)
    /\ calls (world (fst (load_wav env st)))
       = CallRemove (tmp_name env) :: CallWaveOpen (tmp_name env)
         :: CallFfmpeg (filepath (self st)) (tmp_name env)
         :: CallMkTemp (tmp_name env) :: calls (world st).
Proof.
  intros env st p raw Hm Ht Hfresh Hf Hw Hr.
  rewrite load_wav_world, Hm. cbv zeta. rewrite Hf, Hw, Ht, Hr.
  cbn [log temp_files calls]. split; [|reflexivity].
  apply remove_string_fresh. exact Hfresh.
Qed.

Lemma load_wav_mp3_cleans_up_bad_frames :
  snd (load_wav (env_frames params_stereo_2 [x01; x00]) (fresh "song.mp3"))
  = Raise StructError
  /\ temp_files (world (fst (load_wav (env_frames params_stereo_2 [x01; x00])
                               (fresh "song.mp3"))))
     = temp_files (world (fresh "song.mp3"))
  /\ calls (world (fst (load_wav (env_frames params_stereo_2 [x01; x00])
                         (fresh "song.mp3"))))
     = CallRemove (tmp_name (env_frames params_stereo_2 [x01; x00]))
       :: CallWaveOpen (tmp_name (env_frames params_stereo_2 [x01; x00]))
       :: CallFfmpeg (filepath (self (fresh "song.mp3")))
            (tmp_name (env_frames params_stereo_2 [x01; x00]))
       :: CallMkTemp (tmp_name (env_frames params_stereo_2 [x01; x00]))
       :: calls (world (fresh "song.mp3")).
Proof.
  split; [reflexivity|].
  apply (load_wav_mp3_cleans_up (env_frames params_stereo_2 [x01; x00])
           (fresh "song.mp3") params_stereo_2 [x01; x00]);
    try reflexivity.
  cbn. tauto.
Defined.

(** X7. On an [.mp3] path, when ffmpeg fails, [load_wav] raises the
    exception of [subprocess.run] at once: the [wave] reader is never
    called, nothing is removed, and the session is as it was. *)
Theorem load_wav_ffmpeg_failure :
  forall (env : Env) (st : St) (e : exn),
    Str.endswith (Str.lower (filepath (self st))) ".mp3" = true ->
    ffmpeg env (filepath (self st)) (tmp_name env) = Some e ->
    snd (load_wav env st) = Raise e
    /\ self (fst (load_wav env st)) = self st
    /\ calls (world (fst (load_wav env st)))
       = CallFfmpeg (filepath (self st)) (tmp_name env)
         :: CallMkTemp (tmp_name env) :: calls (world st).
Proof.
  intros env st e Hm Hf.
  pose proof (load_wav_outcome env st) as H. unfold load_outcome in H.
  rewrite Hm, Hf in H. split; [exact (f_equal fst H)|].
  split; [exact (f_equal snd H)|].
  rewrite load_wav_world, Hm. cbv zeta. rewrite Hf. reflexivity.
Qed.

Lemma load_wav_ffmpeg_failure_song :
  snd (load_wav env_ffmpeg_fails (fresh "song.mp3")) = Raise CalledProcessError
  /\ self (fst (load_wav env_ffmpeg_fails (fresh "song.mp3")))
     = self (fresh "song.mp3")
  /\ calls (world (fst (load_wav env_ffmpeg_fails (fresh "song.mp3"))))
     = CallFfmpeg (filepath (self (fresh "song.mp3")))
         (tmp_name env_ffmpeg_fails)
       :: CallMkTemp (tmp_name env_ffmpeg_fails)
       :: calls (world (fresh "song.mp3")).
Proof.
  apply (load_wav_ffmpeg_failure env_ffmpeg_fails (fresh "song.mp3")
           CalledProcessError); reflexivity.
Defined.

(** X2. The constructor and [load_wav] test the extension in two
    different ways ([os.path.splitext] against [str.endswith]); on every
    path the constructor accepts they agree.  When the lowered extension
    is [.mp3], [load_wav] creates a temporary file and runs ffmpeg from
    the path to it before anything else; when it is [.wav], [load_wav]
    opens the path itself with the [wave] reader and makes no other call:
    no temporary file, no ffmpeg.  An accepted path is in one of the two
    cases. *)
Theorem init_load_wav_agree :
  forall (path : string) (w : World) (s : AudioChecker) (env : Env),
    snd (init path w) = Ok s ->
    (Str.lower (snd (OsPath.splitext path)) = ".mp3"
     \/ Str.lower (snd (OsPath.splitext path)) = ".wav")
    /\ (Str.lower (snd (OsPath.splitext path)) = ".mp3" ->
        exists later,
          calls (world (fst (load_wav env (mk_st s w))))
          = later ++ [CallFfmpeg path (tmp_name env);
                      CallMkTemp (tmp_name env)] ++ calls w
          /\ forall q, In (CallWaveOpen q) later -> q = tmp_name env)
    /\ (Str.lower (snd (OsPath.splitext path)) = ".wav" ->
        calls (world (fst (load_wav env (mk_st s w))))
        = CallWaveOpen path :: calls w
        /\ temp_files (world (fst (load_wav env (mk_st s w)))) = temp_files w).
Proof.
  intros path w s env Hinit.
  destruct (ext_tests_agree path w s Hinit) as (Hpath & Hmp3 & Hwav).
  assert (Hext : Str.lower (snd (OsPath.splitext path)) = ".mp3"
                 \/ Str.lower (snd (OsPath.splitext path)) = ".wav").
  { destruct (Str.endswith (Str.lower (filepath s)) ".mp3") eqn:He.
    - left. apply Hmp3. reflexivity.
    - right. apply Hwav. reflexivity. }
  split; [exact Hext|]. split.
  - intros Hm. apply Hmp3 in Hm.
    rewrite load_wav_world. cbn [self world]. rewrite Hm, Hpath. cbv zeta.
    destruct (ffmpeg env path (tmp_name env)).
    + exists []. split; [reflexivity|]. intros q [].
    + assert (Hone : forall q, In (CallWaveOpen q) [CallWaveOpen (tmp_name env)]
                               -> q = tmp_name env).
      { intros q [Hq|[]]. congruence. }
      assert (Htwo : forall q, In (CallWaveOpen q)
                                 [CallRemove (tmp_name env);
                                  CallWaveOpen (tmp_name env)]
                               -> q = tmp_name env).
      { intros q [Hq|[Hq|[]]]; congruence. }
      destruct (wave_file env (tmp_name env)) as [e|p e|p raw];
        [exists [CallWaveOpen (tmp_name env)]; split; [reflexivity|exact Hone] ..|].
      destruct (Str.truthy (tmp_name env)).
      * exists [CallRemove (tmp_name env); CallWaveOpen (tmp_name env)].
        split; [|exact Htwo]. destruct (remove_fails env); reflexivity.
      * exists [CallWaveOpen (tmp_name env)]. split; [reflexivity|exact Hone].
  - intros Hv. apply Hwav in Hv.
    rewrite load_wav_world. cbn [self world]. rewrite Hv, Hpath.
    split; reflexivity.
Qed.

Lemma init_load_wav_agree_mp3 :
  snd (init "Live/Set.MP3" world0) = Ok (self (fresh "Live/Set.MP3"))
  /\ calls (world (fst (load_wav (env_frames params_stereo_2 raw_stereo_2)
                         (fresh "Live/Set.MP3"))))
     = [CallRemove "/tmp/tmpk3v9.wav"; CallWaveOpen "/tmp/tmpk3v9.wav";
        CallFfmpeg "Live/Set.MP3" "/tmp/tmpk3v9.wav";
        CallMkTemp "/tmp/tmpk3v9.wav"]
  /\ exists later,
       calls (world (fst (load_wav (env_frames params_stereo_2 raw_stereo_2)
                            (mk_st (self (fresh "Live/Set.MP3")) world0))))
       = later ++ [CallFfmpeg "Live/Set.MP3"
                     (tmp_name (env_frames params_stereo_2 raw_stereo_2));
                   CallMkTemp
                     (tmp_name (env_frames params_stereo_2 raw_stereo_2))]
               ++ calls world0
       /\ forall q, In (CallWaveOpen q) later ->
                    q = tmp_name (env_frames params_stereo_2 raw_stereo_2).
Proof.
  split; [reflexivity|]. split; [reflexivity|].
  apply (proj1 (proj2 (init_load_wav_agree "Live/Set.MP3" world0
                         (self (fresh "Live/Set.MP3"))
                         (env_frames params_stereo_2 raw_stereo_2) eq_refl))).
  reflexivity.
Defined.


(** ** [load_wav]: the buffer *)

(** X8. A call of [load_wav] that reads the parameters of the container
    and then fails on its frames has already overwritten [self.params],
    while [self.frames] and [self.signal] are those of before: after a
    failed reload the session pairs the new parameters with the old
    buffer, and [analyze], when it returns, reports the channel count and
    frame rate of the new container next to the frame count of the old
    one. *)
Theorem failed_reload_mixes_state :
  forall (env : Env) (st : St) (p : wave_params) (raw : list byte),
    transcode_ok env (self st) = true ->
    wave_file env (source_path env (self st)) = Frames p raw ->
    N.of_nat (List.length raw) <> (2 * (nframes p * nchannels p))%N ->
    snd (load_wav env st) = Raise StructError
    /\ params (self (fst (load_wav env st))) = Some p
    /\ frames (self (fst (load_wav env st))) = frames (self st)
    /\ signal (self (fst (load_wav env st))) = signal (self st)
    /\ forall r, analyze (self (fst (load_wav env st))) = Ok r ->
         channels r = nchannels p
         /\ framerate_ r = framerate p
         /\ frames (self st) = Some (frames_ r).
Proof.
  intros env st p raw Ht Hw Hlen.
  pose proof (load_wav_frames env st p raw Ht Hw) as H.
  apply N.eqb_neq in Hlen. rewrite Hlen in H.
  pose proof (f_equal fst H) as H1. pose proof (f_equal snd H) as H2.
  cbn [fst snd] in H1, H2. rewrite H1, H2. cbn [set_params params frames signal].
  split; [reflexivity|]. split; [reflexivity|]. split; [reflexivity|].
  split; [reflexivity|].
  intros r Hr. unfold analyze, true_div in Hr.
  cbn [set_params params frames signal] in Hr.
  destruct (signal (self st)) as [sig|]; [|cbn in Hr; discriminate].
  destruct (frames (self st)) as [n|]; [|cbn in Hr; discriminate].
  destruct (framerate p =? 0)%N; [cbn in Hr; discriminate|].
  destruct (Np.max (Np.abs sig)); [|cbn in Hr; discriminate].
  injection Hr as <-. repeat split.
Qed.

Lemma failed_reload_mixes_state_example :
  transcode_ok (env_frames params_mono_3 raw_stereo_2)
    (self (fst (load_wav (env_frames params_stereo_2 raw_stereo_2)
                  (fresh "a.wav")))) = true
  /\ snd (load_wav (env_frames params_mono_3 raw_stereo_2)
            (fst (load_wav (env_frames params_stereo_2 raw_stereo_2)
                    (fresh "a.wav")))) = Raise StructError
  /\ exists r,
       analyze (self (fst (load_wav (env_frames params_mono_3 raw_stereo_2)
                  (fst (load_wav (env_frames params_stereo_2 raw_stereo_2)
                          (fresh "a.wav")))))) = Ok r
       /\ channels r = 1%N /\ frames_ r = 2%N.
Proof.
  split; [reflexivity|].
  pose proof (failed_reload_mixes_state
                (env_frames params_mono_3 raw_stereo_2)
                (fst (load_wav (env_frames params_stereo_2 raw_stereo_2)
                        (fresh "a.wav")))
                params_mono_3 raw_stereo_2 eq_refl eq_refl) as H.
  destruct H as (H1 & _ & _ & _ & H5); [cbn; lia|].
  split; [exact H1|].
  eexists. split; [reflexivity|].
  split; reflexivity.
Defined.

(** X9. With at most one channel the stored buffer is one-dimensional
    and has [nframes * nchannels] samples in the order of the bytes;
    sample [i] is the little-endian signed 16-bit number made of bytes
    [2i] and [2i+1]: with [u] the low byte plus 256 times the high byte,
    it is [u] when [u < 32768] and [u - 65536] otherwise. *)
Theorem load_wav_mono_buffer :
  forall (env : Env) (st : St) (p : wave_params) (raw : list byte),
    transcode_ok env (self st) = true ->
    wave_file env (source_path env (self st)) = Frames p raw ->
    snd (load_wav env st) = Ok tt ->
    (nchannels p <= 1)%N ->
    let sample := fun (lo hi : byte) =>
      let u := Z.of_N (Byte.to_N lo) + 256 * Z.of_N (Byte.to_N hi) in
      if u <? 32768 then u else u - 65536 in
    exists data,
      signal (self (fst (load_wav env st))) = Some (Np.Arr1 data)
      /\ List.length data = N.to_nat (nframes p * nchannels p)
      /\ forall (i : nat) (d : byte),
           (i < N.to_nat (nframes p * nchannels p))%nat ->
           nth i data 0 = sample (nth (2 * i) raw d) (nth (2 * i + 1) raw d).
Proof.
  intros env st p raw Ht Hw Hok Hc sample.
  pose proof (load_wav_frames env st p raw Ht Hw) as H.
  destruct (N.eqb_spec (N.of_nat (List.length raw))
              (2 * (nframes p * nchannels p))) as [He|He].
  2:{ pose proof (f_equal fst H) as H1. cbn [fst] in H1. congruence. }
  pose proof (f_equal snd H) as H2. cbn [snd] in H2. rewrite H2.
  cbn [signal]. unfold shaped.
  destruct (N.ltb_spec 1 (nchannels p)); [lia|].
  exists (le_pairs raw).
  split; [reflexivity|]. split; [apply le_pairs_length_exact; exact He|].
  intros i d Hi. unfold sample. rewrite (le_pairs_nth raw i d) by lia.
  rewrite s16le_arith. reflexivity.
Qed.

Lemma load_wav_mono_buffer_one_hot :
  transcode_ok (env_frames params_mono_3 raw_one_hot) (self (fresh "a.wav"))
  = true
  /\ signal (self (fst (load_wav (env_frames params_mono_3 raw_one_hot)
                          (fresh "a.wav"))))
     = Some (Np.Arr1 [0; -32767; 0])
  /\ exists data,
       signal (self (fst (load_wav (env_frames params_mono_3 raw_one_hot)
                            (fresh "a.wav")))) = Some (Np.Arr1 data)
       /\ List.length data = 3%nat
       /\ nth 1 data 0 = 1 + 256 * 128 - 65536.
Proof.
  split; [reflexivity|]. split; [reflexivity|].
  destruct (load_wav_mono_buffer (env_frames params_mono_3 raw_one_hot)
              (fresh "a.wav") params_mono_3 raw_one_hot
              eq_refl eq_refl eq_refl)
    as (data & Hs & Hl & Hn); [cbn; lia|].
  exists data. split; [exact Hs|]. split; [exact Hl|].
  rewrite (Hn 1%nat x00); [reflexivity|cbn; lia].
Defined.

(** X10. With more than one channel the stored buffer is a full
    rectangle: [nframes] rows, each of exactly [nchannels] samples, and
    reading the rows one after the other gives back the samples in the
    order of the bytes. *)
Theorem load_wav_rectangular :
  forall (env : Env) (st : St) (p : wave_params) (raw : list byte),
    transcode_ok env (self st) = true ->
    wave_file env (source_path env (self st)) = Frames p raw ->
    snd (load_wav env st) = Ok tt ->
    (1 < nchannels p)%N ->
    exists rows,
      signal (self (fst (load_wav env st)))
      = Some (Np.Arr2 (N.to_nat (nchannels p)) rows)
      /\ List.length rows = N.to_nat (nframes p)
      /\ (forall row, In row rows ->
            List.length row = N.to_nat (nchannels p))
      /\ List.concat rows = le_pairs raw.
Proof.
  intros env st p raw Ht Hw Hok Hc.
  pose proof (load_wav_frames env st p raw Ht Hw) as H.
  destruct (N.eqb_spec (N.of_nat (List.length raw))
              (2 * (nframes p * nchannels p))) as [He|He].
  2:{ pose proof (f_equal fst H) as H1. cbn [fst] in H1. congruence. }
  pose proof (f_equal snd H) as H2. cbn [snd] in H2. rewrite H2.
  cbn [signal].
  pose proof (le_pairs_length_exact _ _ He) as Hl.
  pose proof (flat_shaped p (le_pairs raw) Hl) as Hflat.
  unfold shaped in *. destruct (N.ltb_spec 1 (nchannels p)); [|lia].
  set (n := N.to_nat (nchannels p)) in *.
  assert (Hn : (1 < n)%nat) by (unfold n; lia).
  assert (Hrows : (List.length (le_pairs raw) / n = N.to_nat (nframes p))%nat).
  { rewrite Hl.
    replace (N.to_nat (nframes p * nchannels p))
      with (N.to_nat (nframes p) * n)%nat by (unfold n; lia).
    apply Nat.div_mul. lia. }
  eexists. split; [reflexivity|]. split; [|split].
  - rewrite List.length_map, List.length_seq. exact Hrows.
  - intros row Hin. apply List.in_map_iff in Hin.
    destruct Hin as (f & <- & Hf). apply List.in_seq in Hf.
    unfold Np.chunk. rewrite List.length_firstn, List.length_skipn.
    rewrite Hrows in Hf. rewrite Hl.
    replace (N.to_nat (nframes p * nchannels p))
      with (N.to_nat (nframes p) * n)%nat by (unfold n; lia).
    nia.
  - exact Hflat.
Qed.

Lemma load_wav_rectangular_stereo :
  transcode_ok (env_frames params_stereo_2 raw_stereo_2) (self (fresh "a.wav"))
  = true
  /\ exists rows,
      signal (self (fst (load_wav (env_frames params_stereo_2 raw_stereo_2)
                           (fresh "a.wav"))))
      = Some (Np.Arr2 (N.to_nat (nchannels params_stereo_2)) rows)
      /\ List.length rows = N.to_nat (nframes params_stereo_2)
      /\ (forall row, In row rows ->
            List.length row = N.to_nat (nchannels params_stereo_2))
      /\ List.concat rows = le_pairs raw_stereo_2.
Proof.
  split; [reflexivity|].
  apply (load_wav_rectangular (env_frames params_stereo_2 raw_stereo_2)
           (fresh "a.wav") params_stereo_2 raw_stereo_2);
    try reflexivity.
Defined.

Section Lossless.

Lemma byte_val_inj (a b : byte) : byte_val a = byte_val b -> a = b.
Proof.
  unfold byte_val. intros H. apply N2Z.inj in H.
  pose proof (Byte.of_to_N a) as Ha. pose proof (Byte.of_to_N b) as Hb.
  rewrite H in Ha. congruence.
Qed.

Lemma s16le_inj (a0 a1 b0 b1 : byte) :
  s16le a0 a1 = s16le b0 b1 -> a0 = b0 /\ a1 = b1.
Proof.
  rewrite !s16le_arith. cbv zeta.
  pose proof (byte_val_range a0). pose proof (byte_val_range a1).
  pose proof (byte_val_range b0). pose proof (byte_val_range b1).
  intros H3.
  assert (byte_val a0 = byte_val b0 /\ byte_val a1 = byte_val b1) as [Hx Hy].
  { destruct (Z.ltb_spec (byte_val a0 + 256 * byte_val a1) 32768);
      destruct (Z.ltb_spec (byte_val b0 + 256 * byte_val b1) 32768); lia. }
  split; apply byte_val_inj; assumption.
Qed.

Lemma le_pairs_inj (c : nat) (raw1 raw2 : list byte) :
  List.length raw1 = (2 * c)%nat -> List.length raw2 = (2 * c)%nat ->
  le_pairs raw1 = le_pairs raw2 -> raw1 = raw2.
Proof.
  revert raw1 raw2. induction c as [|c IH]; intros raw1 raw2 H1 H2.
  - destruct raw1, raw2; try discriminate. reflexivity.
  - destruct raw1 as [|a0 [|a1 r1]]; try (cbn in H1; lia).
    destruct raw2 as [|b0 [|b1 r2]]; try (cbn in H2; lia).
    cbn [le_pairs]. intros H. injection H as Hs Hr.
    apply s16le_inj in Hs. destruct Hs as [-> ->].
    rewrite (IH r1 r2); [reflexivity| | |exact Hr]; cbn in H1, H2; lia.
Qed.

(** X11. Decoding loses nothing: two containers with the same
    parameters that load into the same buffer hold the same frame bytes
    (no clipping, no rounding, no two byte pairs decoded alike). *)
Theorem load_wav_lossless :
  forall (env1 env2 : Env) (st1 st2 : St) (p : wave_params)
         (raw1 raw2 : list byte),
    transcode_ok env1 (self st1) = true ->
    transcode_ok env2 (self st2) = true ->
    wave_file env1 (source_path env1 (self st1)) = Frames p raw1 ->
    wave_file env2 (source_path env2 (self st2)) = Frames p raw2 ->
    snd (load_wav env1 st1) = Ok tt ->
    snd (load_wav env2 st2) = Ok tt ->
    signal (self (fst (load_wav env1 st1)))
    = signal (self (fst (load_wav env2 st2))) ->
    raw1 = raw2.
Proof.
  intros env1 env2 st1 st2 p raw1 raw2 Ht1 Ht2 Hw1 Hw2 Hok1 Hok2 Hsig.
  pose proof (load_wav_frames env1 st1 p raw1 Ht1 Hw1) as H1.
  pose proof (load_wav_frames env2 st2 p raw2 Ht2 Hw2) as H2.
  destruct (N.eqb_spec (N.of_nat (List.length raw1))
              (2 * (nframes p * nchannels p))) as [He1|He1].
  2:{ pose proof (f_equal fst H1) as H. cbn [fst] in H. congruence. }
  destruct (N.eqb_spec (N.of_nat (List.length raw2))
              (2 * (nframes p * nchannels p))) as [He2|He2].
  2:{ pose proof (f_equal fst H2) as H. cbn [fst] in H. congruence. }
  pose proof (f_equal snd H1) as Hs1. pose proof (f_equal snd H2) as Hs2.
  cbn [snd] in Hs1, Hs2. rewrite Hs1, Hs2 in Hsig. cbn [signal] in Hsig.
  injection Hsig as Hsh. apply (f_equal Np.flat) in Hsh.
  rewrite !flat_shaped in Hsh by (apply le_pairs_length_exact; assumption).
  apply (le_pairs_inj (N.to_nat (nframes p * nchannels p))); [lia|lia|exact Hsh].
Qed.

Lemma load_wav_lossless_stereo :
  snd (load_wav (env_frames params_stereo_2 raw_stereo_2) (fresh "a.wav"))
  = Ok tt
  /\ snd (load_wav (env_frames params_stereo_2 raw_stereo_2) (fresh "song.mp3"))
     = Ok tt
  /\ signal (self (fst (load_wav (env_frames params_stereo_2 raw_stereo_2)
                          (fresh "a.wav"))))
     = signal (self (fst (load_wav (env_frames params_stereo_2 raw_stereo_2)
                            (fresh "song.mp3"))))
  /\ raw_stereo_2 = raw_stereo_2.
Proof.
  split; [reflexivity|]. split; [reflexivity|]. split; [reflexivity|].
  apply (load_wav_lossless (env_frames params_stereo_2 raw_stereo_2)
           (env_frames params_stereo_2 raw_stereo_2)
           (fresh "a.wav") (fresh "song.mp3") params_stereo_2);
    reflexivity.
Defined.

End Lossless.

(** ** [analyze]: errors and the relations between its fields *)

(** X12. On a session that [load_wav] has just loaded, [analyze] can
    raise two exceptions only: [ZeroDivisionError], exactly when the
    frame rate is 0 (also when the buffer is empty: the division comes
    first), and [ValueError], exactly when the frame rate is not 0 and
    the buffer holds no sample. *)
Theorem analyze_errors_loaded :
  forall (env : Env) (st : St),
    snd (load_wav env st) = Ok tt ->
    exists p,
      params (self (fst (load_wav env st))) = Some p
      /\ (analyze (self (fst (load_wav env st))) = Raise ZeroDivisionError
          <-> framerate p = 0%N)
      /\ (analyze (self (fst (load_wav env st))) = Raise ValueError
          <-> (framerate p <> 0%N /\ (nframes p * nchannels p = 0)%N))
      /\ (forall e, analyze (self (fst (load_wav env st))) = Raise e ->
            e = ZeroDivisionError \/ e = ValueError).
Proof.
  intros env st Hok.
  destruct (loaded_session env st Hok) as (p & sig & Hs & Hlen & _).
  exists p. rewrite Hs. cbn [params]. split; [reflexivity|].
  rewrite analyze_set.
  assert (Hmax : Np.max (Np.abs sig) = Raise ValueError
                 \/ exists m, Np.max (Np.abs sig) = Ok m).
  { unfold Np.max. destruct (Np.flat (Np.abs sig)); eauto. }
  assert (Hempty : Np.max (Np.abs sig) = Raise ValueError
                   <-> (nframes p * nchannels p = 0)%N).
  { unfold Np.max. rewrite flat_abs.
    destruct (Np.flat sig) as [|x xs]; cbn in *.
    - split; [lia|reflexivity].
    - split; [discriminate|lia]. }
  destruct (N.eqb_spec (framerate p) 0) as [Hz|Hnz].
  - split; [tauto|]. split.
    + split; [discriminate|tauto].
    + intros e He. injection He as <-. now left.
  - destruct Hmax as [Hm|[m Hm]]; rewrite Hm.
    + split; [split; [discriminate|contradiction]|].
      split; [|intros e He; injection He as <-; now right].
      split; [intros _; split; [assumption|]; apply Hempty; exact Hm|reflexivity].
    + split; [split; [discriminate|contradiction]|].
      split; [|discriminate].
      split; [discriminate|]. intros [_ H0]. apply Hempty in H0. congruence.
Qed.

Lemma analyze_errors_loaded_empty :
  snd (load_wav (env_frames params_mono_0 []) (fresh "a.wav")) = Ok tt
  /\ analyze (self (fst (load_wav (env_frames params_mono_0 [])
                          (fresh "a.wav")))) = Raise ValueError.
Proof.
  split; [reflexivity|].
  destruct (analyze_errors_loaded (env_frames params_mono_0 [])
              (fresh "a.wav") eq_refl) as (p & Hp & _ & Hv & _).
  apply Hv. injection Hp as <-. split; [discriminate|reflexivity].
Defined.

Section MeanAndPeak.

Lemma sum_abs_nonneg (l : list Z) : 0 <= Np.sum (List.map Z.abs l).
Proof.
  induction l as [|x l IH]; [cbn; lia|].
  cbn [List.map]. rewrite sum_cons. lia.
Qed.

Lemma sum_abs_le (l : list Z) (m : Z) :
  (forall x, In x l -> Z.abs x <= m) ->
  Np.sum (List.map Z.abs l) <= Z.of_nat (List.length l) * m.
Proof.
  induction l as [|x l IH]; intros H; [cbn; lia|].
  cbn [List.map List.length]. rewrite sum_cons.
  specialize (IH (fun y Hy => H y (or_intror Hy))).
  pose proof (H x (or_introl eq_refl)). lia.
Qed.

Lemma sum_abs_zero_inv (l : list Z) :
  Np.sum (List.map Z.abs l) = 0 -> forall x, In x l -> x = 0.
Proof.
  induction l as [|y l IH]; intros H x Hx; [contradiction|].
  cbn [List.map] in H. rewrite sum_cons in H.
  pose proof (sum_abs_nonneg l). destruct Hx as [<-|Hx]; [lia|].
  apply IH; [lia|exact Hx].
Qed.

Lemma inject_Z_pos (n : nat) : (0 < n)%nat -> (0 < inject_Z (Z.of_nat n))%Q.
Proof. intros H. unfold Qlt. cbn. lia. Qed.

(** The fields of a returned report, on a session just loaded. *)
Lemma analyze_loaded_fields (env : Env) (st : St) (r : Analysis) :
  snd (load_wav env st) = Ok tt ->
  analyze (self (fst (load_wav env st))) = Ok r ->
  exists p sig,
    self (fst (load_wav env st)) =
      mk_checker (filepath (self st)) (Some p) (Some (nframes p)) (Some sig)
    /\ List.length (Np.flat sig) = N.to_nat (nframes p * nchannels p)
    /\ Np.flat sig <> []
    /\ Np.max (Np.abs sig) = Ok (peak_amplitude r)
    /\ mean_amplitude r = Np.mean (Np.abs sig)
    /\ channels r = nchannels p /\ sample_width r = sampwidth p
    /\ framerate_ r = framerate p /\ frames_ r = nframes p.
Proof.
  intros Hok Hr.
  destruct (loaded_session env st Hok) as (p & sig & Hs & Hlen & _).
  exists p, sig. rewrite Hs in Hr. rewrite analyze_set in Hr.
  destruct (framerate p =? 0)%N; [discriminate|].
  destruct (Np.max (Np.abs sig)) as [m|e] eqn:Hm; [|discriminate].
  injection Hr as <-. cbn. repeat split; auto.
  intros Hnil. unfold Np.max in Hm. rewrite flat_abs, Hnil in Hm. discriminate.
Qed.

(** X13. Whenever [analyze] returns on a session just loaded, the mean
    amplitude lies between 0 and the peak amplitude. *)
Theorem mean_between_zero_and_peak :
  forall (env : Env) (st : St) (r : Analysis),
    snd (load_wav env st) = Ok tt ->
    analyze (self (fst (load_wav env st))) = Ok r ->
    (0 <= mean_amplitude r)%Q
    /\ (mean_amplitude r <= inject_Z (peak_amplitude r))%Q.
Proof.
  intros env st r Hok Hr.
  destruct (analyze_loaded_fields env st r Hok Hr)
    as (p & sig & _ & _ & Hne & Hmax & -> & _).
  apply np_max_spec in Hmax. destruct Hmax as [_ Hle].
  unfold Np.mean. rewrite flat_abs in *. rewrite List.length_map.
  assert (Hpos : (0 < inject_Z (Z.of_nat (List.length (Np.flat sig))))%Q).
  { apply inject_Z_pos. destruct (Np.flat sig); [congruence|cbn; lia]. }
  split.
  - apply Qle_shift_div_l; [exact Hpos|]. rewrite Qmult_0_l.
    rewrite <- (Zle_Qle 0). apply sum_abs_nonneg.
  - apply Qle_shift_div_r; [exact Hpos|].
    rewrite <- inject_Z_mult, <- Zle_Qle, Z.mul_comm.
    apply sum_abs_le. intros x Hx. apply Hle. apply List.in_map. exact Hx.
Qed.

Lemma mean_between_zero_and_peak_stereo :
  (0 <= 7 # 4)%Q /\ (7 # 4 <= inject_Z 3)%Q.
Proof.
  apply (mean_between_zero_and_peak
           (env_frames params_stereo_2 raw_stereo_2) (fresh "a.wav")
           (mk_analysis 2 2 44100 2 (2 # 44100) 3 (7 # 4)));
    reflexivity.
Defined.

(** X14. Whenever [analyze] returns on a session just loaded, these
    three say the same: the peak amplitude is 0, the mean amplitude is 0,
    every sample of the buffer is 0. *)
Theorem silence_iff_zero_peak :
  forall (env : Env) (st : St) (r : Analysis),
    snd (load_wav env st) = Ok tt ->
    analyze (self (fst (load_wav env st))) = Ok r ->
    exists sig,
      signal (self (fst (load_wav env st))) = Some sig
      /\ (peak_amplitude r = 0 <-> forall x, In x (Np.flat sig) -> x = 0)
      /\ ((mean_amplitude r == 0)%Q <-> forall x, In x (Np.flat sig) -> x = 0).
Proof.
  intros env st r Hok Hr.
  destruct (analyze_loaded_fields env st r Hok Hr)
    as (p & sig & Hs & _ & Hne & Hmax & Hmean & _).
  exists sig. rewrite Hs. cbn [signal]. split; [reflexivity|].
  apply np_max_spec in Hmax. rewrite flat_abs in Hmax.
  destruct Hmax as [Hin Hle]. split.
  - split.
    + intros H0 x Hx. specialize (Hle (Z.abs x) (List.in_map _ _ _ Hx)). lia.
    + intros Hz. apply in_map_abs in Hin. destruct Hin as (x & Hx & <-).
      rewrite (Hz x Hx). reflexivity.
  - rewrite Hmean. unfold Np.mean. rewrite flat_abs, List.length_map.
    set (L := inject_Z (Z.of_nat (List.length (Np.flat sig)))).
    assert (HL : ~ (L == 0)%Q).
    { unfold L, Qeq. cbn. destruct (Np.flat sig); [congruence|cbn; lia]. }
    split.
    + intros H0. apply sum_abs_zero_inv.
      assert (Hq : (inject_Z (Np.sum (List.map Z.abs (Np.flat sig))) == 0)%Q).
      { rewrite <- (Qmult_div_r (inject_Z (Np.sum (List.map Z.abs (Np.flat sig))))
                      L HL).
        rewrite H0. apply Qmult_0_r. }
      unfold Qeq in Hq. cbn in Hq. lia.
    + intros Hz. rewrite (sum_abs_zero _ Hz). unfold Qdiv. apply Qmult_0_l.
Qed.

Lemma silence_iff_zero_peak_example :
  snd (load_wav (env_frames (mk_params 1 2 8000 2) raw_silence_2)
         (fresh "a.wav")) = Ok tt
  /\ exists sig,
      signal (self (fst (load_wav (env_frames (mk_params 1 2 8000 2)
                                     raw_silence_2) (fresh "a.wav"))))
      = Some sig
      /\ (0 = 0 <-> forall x, In x (Np.flat sig) -> x = 0)
      /\ ((0 # 2 == 0)%Q <-> forall x, In x (Np.flat sig) -> x = 0).
Proof.
  split; [reflexivity|].
  apply (silence_iff_zero_peak
           (env_frames (mk_params 1 2 8000 2) raw_silence_2) (fresh "a.wav")
           (mk_analysis 1 2 8000 2 (2 # 8000) 0 (0 # 2)));
    reflexivity.
Defined.



End MeanAndPeak.

(** ** [plot_waveform] *)

Section Plot.

(** Column [c] of the reshaped buffer is channel [c] of the interleaved
    samples. *)
Lemma column_shaped (n k c : nat) (data : list Z) :
  (c < n)%nat ->
  List.map (fun r => nth c r 0) (List.map (Np.chunk n data) (seq 0 k))
  = List.map (fun f => nth (f * n + c) data 0) (seq 0 k).
Proof.
  intros Hc. rewrite List.map_map. apply List.map_ext. intros f.
  unfold Np.chunk. rewrite nth_firstn.
  apply Nat.ltb_lt in Hc. rewrite Hc. apply nth_skipn.
Qed.

(** X16. On a session just loaded from a container with at most one
    channel, [plot_waveform] returns, and plots one line without label:
    all the samples, in the order of the file. *)
Theorem plot_waveform_mono :
  forall (env : Env) (st : St) (p : wave_params) (raw : list byte),
    transcode_ok env (self st) = true ->
    wave_file env (source_path env (self st)) = Frames p raw ->
    snd (load_wav env st) = Ok tt ->
    (nchannels p <= 1)%N ->
    plot_waveform (self (fst (load_wav env st))) = Ok [(None, le_pairs raw)].
Proof.
  intros env st p raw Ht Hw Hok Hc.
  pose proof (load_wav_frames env st p raw Ht Hw) as H.
  destruct (N.eqb_spec (N.of_nat (List.length raw))
              (2 * (nframes p * nchannels p))) as [He|He].
  2:{ pose proof (f_equal fst H) as H1. cbn [fst] in H1. congruence. }
  pose proof (f_equal snd H) as H2. cbn [snd] in H2. rewrite H2.
  unfold plot_waveform, shaped. cbn [signal params].
  destruct (N.ltb_spec 1 (nchannels p)); [lia|]. reflexivity.
Qed.

Lemma plot_waveform_mono_one_hot :
  plot_waveform (self (fst (load_wav (env_frames params_mono_3 raw_one_hot)
                              (fresh "a.wav"))))
  = Ok [(None, le_pairs raw_one_hot)].
Proof.
  apply (plot_waveform_mono (env_frames params_mono_3 raw_one_hot)
           (fresh "a.wav") params_mono_3 raw_one_hot);
    reflexivity || (cbn; lia).
Defined.

(** X17. On a session just loaded from a container with two or more
    channels, [plot_waveform] returns, and plots exactly two lines,
    labelled Left and Right: the first and the second channel, each with
    one value per frame.  Further channels are not plotted. *)
Theorem plot_waveform_two_channels :
  forall (env : Env) (st : St) (p : wave_params) (raw : list byte),
    transcode_ok env (self st) = true ->
    wave_file env (source_path env (self st)) = Frames p raw ->
    snd (load_wav env st) = Ok tt ->
    (1 < nchannels p)%N ->
    plot_waveform (self (fst (load_wav env st)))
    = Ok [(Some "Left", channel_of (N.to_nat (nchannels p)) (le_pairs raw) 0);
          (Some "Right", channel_of (N.to_nat (nchannels p)) (le_pairs raw) 1)]
    /\ List.length (channel_of (N.to_nat (nchannels p)) (le_pairs raw) 0)
       = N.to_nat (nframes p)
    /\ List.length (channel_of (N.to_nat (nchannels p)) (le_pairs raw) 1)
       = N.to_nat (nframes p).
Proof.
  intros env st p raw Ht Hw Hok Hc.
  pose proof (load_wav_frames env st p raw Ht Hw) as H.
  destruct (N.eqb_spec (N.of_nat (List.length raw))
              (2 * (nframes p * nchannels p))) as [He|He].
  2:{ pose proof (f_equal fst H) as H1. cbn [fst] in H1. congruence. }
  pose proof (f_equal snd H) as H2. cbn [snd] in H2. rewrite H2.
  pose proof (le_pairs_length_exact _ _ He) as Hl.
  unfold plot_waveform, shaped. cbn [signal params].
  destruct (N.ltb_spec 1 (nchannels p)); [|lia].
  set (n := N.to_nat (nchannels p)) in *.
  assert (Hn : (1 < n)%nat) by (unfold n; lia).
  unfold Np.column.
  assert (Hc0 : (0 <? n)%nat = true) by (apply Nat.ltb_lt; lia).
  assert (Hc1 : (1 <? n)%nat = true) by (apply Nat.ltb_lt; lia).
  rewrite Hc0, Hc1. rewrite !column_shaped by lia.
  unfold channel_of. split; [reflexivity|].
  rewrite !List.length_map, !List.length_seq, Hl.
  replace (N.to_nat (nframes p * nchannels p))
    with (N.to_nat (nframes p) * n)%nat by (unfold n; lia).
  rewrite Nat.div_mul by lia. auto.
Qed.

Lemma plot_waveform_two_channels_stereo :
  plot_waveform (self (fst (load_wav (env_frames params_stereo_2 raw_stereo_2)
                              (fresh "a.wav"))))
  = Ok [(Some "Left", channel_of (N.to_nat (nchannels params_stereo_2))
                        (le_pairs raw_stereo_2) 0);
        (Some "Right", channel_of (N.to_nat (nchannels params_stereo_2))
                         (le_pairs raw_stereo_2) 1)]
  /\ List.length (channel_of (N.to_nat (nchannels params_stereo_2))
                    (le_pairs raw_stereo_2) 0)
     = N.to_nat (nframes params_stereo_2)
  /\ List.length (channel_of (N.to_nat (nchannels params_stereo_2))
                    (le_pairs raw_stereo_2) 1)
     = N.to_nat (nframes params_stereo_2).
Proof.
  apply (plot_waveform_two_channels (env_frames params_stereo_2 raw_stereo_2)
           (fresh "a.wav") params_stereo_2 raw_stereo_2);
    reflexivity.
Defined.

(** X18. When a session holds a one-dimensional buffer and a later call
    of [load_wav] reads parameters with more than one channel and then
    fails on the frames, [plot_waveform] raises [IndexError]: it indexes
    the old buffer by the columns the new parameters announce. *)
Theorem plot_waveform_after_failed_reload :
  forall (env : Env) (st : St) (p : wave_params) (raw : list byte)
         (d : list Z),
    signal (self st) = Some (Np.Arr1 d) ->
    transcode_ok env (self st) = true ->
    wave_file env (source_path env (self st)) = Frames p raw ->
    N.of_nat (List.length raw) <> (2 * (nframes p * nchannels p))%N ->
    (1 < nchannels p)%N ->
    snd (load_wav env st) = Raise StructError
    /\ plot_waveform (self (fst (load_wav env st))) = Raise IndexError.
Proof.
  intros env st p raw d Hsig Ht Hw Hlen Hc.
  pose proof (load_wav_frames env st p raw Ht Hw) as H.
  apply N.eqb_neq in Hlen. rewrite Hlen in H.
  pose proof (f_equal fst H) as H1. pose proof (f_equal snd H) as H2.
  cbn [fst snd] in H1, H2. rewrite H1, H2. split; [reflexivity|].
  unfold plot_waveform. cbn [set_params signal params]. rewrite Hsig.
  apply N.ltb_lt in Hc. rewrite Hc. reflexivity.
Qed.

Lemma plot_waveform_after_failed_reload_example :
  signal (self (fst (load_wav (env_frames params_mono_3 raw_one_hot)
                       (fresh "a.wav"))))
  = Some (Np.Arr1 (le_pairs raw_one_hot))
  /\ snd (load_wav (env_frames params_stereo_2 [x01; x00])
            (fst (load_wav (env_frames params_mono_3 raw_one_hot)
                    (fresh "a.wav")))) = Raise StructError
  /\ plot_waveform
       (self (fst (load_wav (env_frames params_stereo_2 [x01; x00])
                     (fst (load_wav (env_frames params_mono_3 raw_one_hot)
                             (fresh "a.wav")))))) = Raise IndexError.
Proof.
  split; [reflexivity|].
  apply (plot_waveform_after_failed_reload
           (env_frames params_stereo_2 [x01; x00])
           (fst (load_wav (env_frames params_mono_3 raw_one_hot)
                   (fresh "a.wav")))
           params_stereo_2 [x01; x00] (le_pairs raw_one_hot));
    reflexivity || (cbn; lia).
Defined.

End Plot.

(** ** [export_pdf_report] and the command line *)

Section Report.

Lemma plot_waveform_loaded (env : Env) (st : St) :
  snd (load_wav env st) = Ok tt ->
  exists img, plot_waveform (self (fst (load_wav env st))) = Ok img.
Proof.
  intros Hok.
  destruct (load_wav_ok_inv env st Hok) as (Ht & p & raw & Hw & _ & _).
  destruct (N.ltb_spec 1 (nchannels p)) as [Hc|Hc].
  - destruct (plot_waveform_two_channels env st p raw Ht Hw Hok Hc) as [H _].
    eauto.
  - pose proof (plot_waveform_mono env st p raw Ht Hw Hok Hc). eauto.
Qed.

(** What [export_pdf_report] answers, by what [analyze] and
    [plot_waveform] answer. *)
Lemma export_pdf_report_eq (s : AudioChecker) (out : string)
    (pagesize : Q * Q) :
  export_pdf_report s out pagesize =
  match analyze s with
  | Raise e => Raise e
  | Ok _ =>
      match plot_waveform s with
      | Raise e => Raise e
      | Ok _ => Raise TypeError
      end
  end.
Proof.
  unfold export_pdf_report.
  destruct (analyze s) as [r|e]; [|reflexivity].
  destruct (plot_waveform s) as [img|e]; [|reflexivity].
  cbv zeta. destruct (draw_items (items r) _). reflexivity.
Qed.

(** X19. [export_pdf_report] never writes a document.  On a session
    just loaded it raises what [analyze] raises ([ZeroDivisionError] when
    the frame rate is 0, [ValueError] when the frame rate is not 0 and
    the buffer is empty); otherwise [analyze] and [plot_waveform] return,
    and it raises [TypeError] at [canvas.drawImage], which is handed the
    [BytesIO] of [plot_waveform], before [c.save()]. *)
Theorem export_after_load :
  forall (env : Env) (st : St) (out : string) (pagesize : Q * Q),
    snd (load_wav env st) = Ok tt ->
    exists p,
      params (self (fst (load_wav env st))) = Some p
      /\ (export_pdf_report (self (fst (load_wav env st))) out pagesize
          = Raise ZeroDivisionError <-> framerate p = 0%N)
      /\ (export_pdf_report (self (fst (load_wav env st))) out pagesize
          = Raise ValueError
          <-> (framerate p <> 0%N /\ (nframes p * nchannels p = 0)%N))
      /\ (export_pdf_report (self (fst (load_wav env st))) out pagesize
          = Raise TypeError
          <-> (framerate p <> 0%N /\ (nframes p * nchannels p <> 0)%N))
      /\ (forall pdf,
            export_pdf_report (self (fst (load_wav env st))) out pagesize
            <> Ok pdf).
Proof.
  intros env st out pagesize Hok.
  destruct (analyze_errors_loaded env st Hok) as (p & Hp & Hz & Hv & Hother).
  destruct (plot_waveform_loaded env st Hok) as [img Himg].
  exists p. split; [exact Hp|].
  rewrite export_pdf_report_eq, Himg.
  destruct (analyze (self (fst (load_wav env st)))) as [r|e] eqn:Ha.
  - assert (Hfr : framerate p <> 0%N).
    { intros H0. apply Hz in H0. discriminate. }
    assert (Hn : (nframes p * nchannels p <> 0)%N).
    { intros H0. assert (H : Ok r = Raise ValueError) by (apply Hv; auto).
      discriminate. }
    split; [split; [discriminate|contradiction]|].
    split; [split; [discriminate|intros [_ H0]; contradiction]|].
    split; [split; auto|]. discriminate.
  - assert (Hconv : forall e', @Raise Pdf e = Raise e'
                               <-> @Raise Analysis e = Raise e').
    { intros e'. split; intros H; injection H as ->; reflexivity. }
    rewrite !Hconv.
    split; [exact Hz|]. split; [exact Hv|]. split; [|discriminate].
    split.
    + intros He. injection He as ->.
      destruct (Hother TypeError eq_refl); discriminate.
    + intros [Hfr Hn]. exfalso.
      destruct (Hother e eq_refl) as [He|He]; subst e.
      * apply Hfr. apply Hz. reflexivity.
      * apply Hn. apply Hv. reflexivity.
Qed.

Lemma export_after_load_stereo :
  snd (load_wav (env_frames params_stereo_2 raw_stereo_2) (fresh "a.wav")) = Ok tt
  /\ analyze (self (fst (load_wav (env_frames params_stereo_2 raw_stereo_2)
                          (fresh "a.wav"))))
     = Ok (mk_analysis 2 2 44100 2 (2 # 44100) 3 (7 # 4))
  /\ export_pdf_report
       (self (fst (load_wav (env_frames params_stereo_2 raw_stereo_2)
                     (fresh "a.wav")))) "report.pdf" (595 # 1, 842 # 1)%Q
     = Raise TypeError.
Proof.
  split; [reflexivity|]. split; [reflexivity|].
  destruct (export_after_load (env_frames params_stereo_2 raw_stereo_2)
              (fresh "a.wav") "report.pdf" (595 # 1, 842 # 1)%Q eq_refl)
    as (p & Hp & _ & _ & Ht & _).
  injection Hp as <-. apply Ht. split; discriminate.
Defined.

(** X20. The command line run (construct, load, export) never writes a
    report.  When everything before the export works (the lowered
    extension is [.wav] or [.mp3]; ffmpeg, if needed, succeeds; the
    [wave] reader delivers parameters and frame bytes of
    [2 * nframes * nchannels] bytes; the frame rate is not 0 and there is
    at least one sample), the run ends with the [TypeError] of
    [canvas.drawImage]; in every other case it ends with an earlier
    exception. *)
Theorem main_never_writes_report :
  forall (input output : string) (pagesize : Q * Q) (env : Env) (w : World),
    (forall pdf, snd (main input output pagesize env w) <> Ok pdf)
    /\ ((Str.lower (snd (OsPath.splitext input)) = ".wav"
         \/ Str.lower (snd (OsPath.splitext input)) = ".mp3") ->
        transcode_ok env (new_checker input) = true ->
        forall p raw,
          wave_file env (source_path env (new_checker input)) = Frames p raw ->
          N.of_nat (List.length raw) = (2 * (nframes p * nchannels p))%N ->
          framerate p <> 0%N ->
          (nframes p * nchannels p <> 0)%N ->
          snd (main input output pagesize env w) = Raise TypeError).
Proof.
  intros input output pagesize env w. split.
  - intros pdf. unfold main.
    destruct (init input w) as [w1 [checker|e]]; [|discriminate].
    destruct (load_wav env (mk_st checker w1)) as [st' [[]|e]]; [|discriminate].
    cbn [snd]. rewrite export_pdf_report_eq.
    destruct (analyze (self st')); [|discriminate].
    destruct (plot_waveform (self st')); discriminate.
  - intros Hext Ht p raw Hw Hlen Hfr Hn. unfold main. rewrite init_result.
    cbv zeta. fold (new_checker input).
    assert (He : (String.eqb (Str.lower (snd (OsPath.splitext input))) ".wav"
                  || String.eqb (Str.lower (snd (OsPath.splitext input))) ".mp3")%bool
                 = true).
    { rewrite Bool.orb_true_iff, !String.eqb_eq. exact Hext. }
    rewrite He.
    set (st := mk_st (new_checker input) w).
    assert (Hok : snd (load_wav env st) = Ok tt).
    { pose proof (load_wav_frames env st p raw Ht Hw) as H.
      apply N.eqb_eq in Hlen. rewrite Hlen in H. exact (f_equal fst H). }
    destruct (export_after_load env st output pagesize Hok)
      as (p' & Hp' & _ & _ & Htype & _).
    destruct (load_wav_ok_inv env st Hok) as (_ & p2 & raw2 & Hw2 & _ & Hs2).
    change (self st) with (new_checker input) in Hw2.
    rewrite Hw in Hw2. injection Hw2 as <- <-.
    rewrite Hs2 in Hp'. cbn [params] in Hp'. injection Hp' as <-.
    destruct (load_wav env st) as [st' res] eqn:Hload.
    cbn [fst snd] in *. subst res. cbn [snd].
    apply Htype. auto.
Qed.

Lemma main_never_writes_report_stereo :
  snd (main "a.wav" "report.pdf" (595 # 1, 842 # 1)%Q
         (env_frames params_stereo_2 raw_stereo_2) world0) = Raise TypeError.
Proof.
  apply (proj2 (main_never_writes_report "a.wav" "report.pdf"
                  (595 # 1, 842 # 1)%Q
                  (env_frames params_stereo_2 raw_stereo_2) world0)
               (or_introl eq_refl) eq_refl params_stereo_2 raw_stereo_2
               eq_refl eq_refl);
    discriminate.
Defined.

End Report.
